(** * Binance open-interest history downloader: the batched fetch engine

    A shallow embedding of [BinanceOIHistory] (file
    [1获取U本位合约数据binance.py]): the transport wrapper [_make_request],
    the endpoint adapters, the batching loop [_get_batched_data] /
    [_get_batched_funding_rate], the final concat / drop_duplicates /
    sort_values step and the aggregator [get_all_comprehensive_data].

    Conventions.
    - An instant ([datetime], [pd.Timestamp]) is a [Z]: microseconds since
      the epoch, the resolution of [datetime].  A [timedelta] is a [Z] number
      of microseconds.
    - A [DataFrame] is the list of its rows in index order; a row carries its
      [timestamp] column and the remaining cells.
    - The network is a state [W] threaded through every call. *)

From Stdlib Require Import ZArith List Sorting.Sorted Lia.
From stdpp Require Import base option list gmap strings sorting.

Open Scope Z_scope.

(** ** Time *)

Module Time.

Definition instant := Z.
Definition timedelta := Z.

Bind Scope Z_scope with instant timedelta.

Definition microseconds (n : Z) : timedelta := n.
Definition milliseconds (n : Z) : timedelta := n * 1000.
Definition seconds (n : Z) : timedelta := n * 1000000.
Definition minutes (n : Z) : timedelta := n * 60000000.
Definition hours (n : Z) : timedelta := n * 3600000000.
Definition days (n : Z) : timedelta := n * 86400000000.

(** [datetime(y, m, d)] for the proleptic Gregorian calendar (days since
    1970-01-01, the usual civil-date formula), at midnight. *)
Definition days_from_civil (y m d : Z) : Z :=
  let y' := if m <=? 2 then y - 1 else y in
  let era := y' / 400 in
  let yoe := y' - era * 400 in
  let mp := (m + 9) mod 12 in
  let doy := (153 * mp + 2) / 5 + d - 1 in
  let doe := yoe * 365 + yoe / 4 - yoe / 100 + doy in
  era * 146097 + doe - 719468.

Definition datetime (y m d : Z) : instant := days (days_from_civil y m d).

End Time.
Import Time.

(** ** Rows and frames *)

(** A row: its timestamp and its other cells. *)
Record Row (A : Type) := mkRow { timestamp : instant; cells : A }.

Arguments mkRow {A} timestamp cells.
Arguments timestamp {A} r.
Arguments cells {A} r.

Abbreviation DataFrame A := (list (Row A)).

Section Frames.

Context {A : Type}.

Implicit Types (r x : Row A) (df : DataFrame A).

(** [df['timestamp'].iloc[-1]], defined on a frame with at least one row. *)
Definition iloc_last df : option instant :=
  timestamp <$> last df.

(** The largest timestamp of a frame. *)
Definition max_timestamp df : option instant :=
  match df with
  | [] => None
  | r :: rest => Some (foldr (fun x acc => Z.max (timestamp x) acc) (timestamp r) rest)
  end.

(** [pd.concat(all_data, ignore_index=True)]: the rows of the frames, in
    order. *)
Definition pd_concat (all_data : list (DataFrame A)) : DataFrame A :=
  concat all_data.

(** [df.drop_duplicates(subset=['timestamp'])]: pandas keeps, for every
    timestamp, the first row carrying it ([keep='first'] is the default),
    and leaves the order of the kept rows unchanged. *)
Fixpoint drop_duplicates df : DataFrame A :=
  match df with
  | [] => []
  | r :: rest =>
      r :: filter (fun x => timestamp x ≠ timestamp r) (drop_duplicates rest)
  end.

(** [df.sort_values('timestamp')]: ascending.  The row is put in front of
    the first row that is not older, so rows of equal timestamp keep their
    relative order. *)
Fixpoint insert_row r df : DataFrame A :=
  match df with
  | [] => [r]
  | x :: rest =>
      if timestamp r <=? timestamp x then r :: x :: rest
      else x :: insert_row r rest
  end.

Definition sort_values df : DataFrame A :=
  foldr insert_row [] df.

(** Lines 522-531 of [_get_batched_data]:
<<
    if all_data:
        result = pd.concat(all_data, ignore_index=True)
        result = result.drop_duplicates(subset=['timestamp'])
        result = result.sort_values('timestamp').reset_index(drop=True)
        return result
    else:
        return None
>>
    [reset_index(drop=True)] renumbers the index and leaves the rows as
    they are. *)
Definition merge_frames (all_data : list (DataFrame A)) : DataFrame A :=
  sort_values (drop_duplicates (pd_concat all_data)).

Definition finish (all_data : list (DataFrame A)) : option (DataFrame A) :=
  match all_data with
  | [] => None
  | _ => Some (merge_frames all_data)
  end.

Definition ascending df : Prop :=
  StronglySorted (fun x y => timestamp x <= timestamp y) df.

Definition strictly_ascending df : Prop :=
  StronglySorted (fun x y => timestamp x < timestamp y) df.




End Frames.


(** ** Exceptions and results of a call *)

(** The exceptions of the model: the ones pandas raises on a payload of the
    wrong shape: a column that is not there, a payload that the [DataFrame]
    constructor refuses, a value that [to_datetime] or [astype] cannot
    convert; and the exception with which the loop stops on a page that has
    two columns of one label: [df[column].iloc[-1]] is then a [Series], on
    which [strftime] (line 575) raises an AttributeError, and when a page
    was taken in before, the comparison of line 570 raises already. *)
Inductive exn :=
| KeyError (column : string)
| ValueError
| ConversionError (column : string)
| AmbiguousColumn (column : string).

(** What a call of an endpoint adapter does: it returns a frame or [None],
    or it raises. *)
Inductive fetch_result (A : Type) :=
| Returned (df : option (DataFrame A))
| Raised (e : exn).

Arguments Returned {A} df.
Arguments Raised {A} e.

(** ** The step table of [_get_batched_data] *)

Definition period_map : gmap string timedelta :=
  list_to_map
    [ ("5m", minutes 2500);
      ("15m", minutes 7500);
      ("30m", minutes 15000);
      ("1h", hours 500);
      ("2h", hours 1000);
      ("4h", hours 2000);
      ("6h", hours 3000);
      ("12h", hours 6000);
      ("1d", days 500) ].

(** [period_map.get(period, timedelta(hours=500))] *)
Definition period_step (period : string) : timedelta :=
  default (hours 500) (period_map !! period).

Definition table_periods : list string :=
  ["5m"; "15m"; "30m"; "1h"; "2h"; "4h"; "6h"; "12h"; "1d"].

(** ** The batching loop *)

Section Engine.

Context {A W : Type}.

(** An adapter with its keyword arguments [period] and [limit] applied:
    the window goes in, the network state is threaded through. *)
Definition window_fetcher := instant -> instant -> W -> fetch_result A * W.

(** The local variables of [_get_batched_data], the network state, and
    (ghost) the windows requested so far, oldest first. *)
Record BatchState := mkBatch {
  all_data : list (DataFrame A);
  current_start : instant;
  last_timestamp : option instant;
  batch_num : nat;
  consecutive_failures : nat;
  world : W;
  requested : list (instant * instant)
}.

Definition max_consecutive_failures : nat := 3.

Definition init_state (start_date : instant) (w : W) : BatchState :=
  mkBatch [] start_date None 0 0 w [].

(** How one pass through the body of the [while] ends: at its bottom
    (after [time.sleep(2)]), at a [break], or with an exception that the
    adapter raised. *)
Inductive step_result :=
| Continue (st : BatchState)
| Break (st : BatchState)
| Abort (e : exn) (st : BatchState).

Variable time_delta : timedelta.
Variable end_date : instant.
Variable fetch : window_fetcher.

(** [last_timestamp is not None and current_last_timestamp <= last_timestamp] *)
Definition stalled (last : option instant) (current_last : instant) : bool :=
  match last with
  | Some l => current_last <=? l
  | None => false
  end.

(** Lines 474-520: the body of the loop. *)
Definition batch_step (st : BatchState) : step_result :=
  let batch_num' := S (batch_num st) in
  let current_end := Z.min (current_start st + time_delta) end_date in
  let '(res, w') := fetch (current_start st) current_end (world st) in
  let called :=
    mkBatch (all_data st) (current_start st) (last_timestamp st) batch_num'
      (consecutive_failures st) w'
      (requested st ++ [(current_start st, current_end)]) in
  let failure :=
    let failures := S (consecutive_failures st) in
    let counted :=
      mkBatch (all_data called) (current_start called) (last_timestamp called)
        (batch_num called) failures (world called) (requested called) in
    if (max_consecutive_failures <=? failures)%nat then Break counted
    else
      Continue
        (mkBatch (all_data called) (current_end + milliseconds 1)
           (last_timestamp called) (batch_num called) failures
           (world called) (requested called)) in
  match res with
  | Raised e => Abort e called
  | Returned None => failure
  | Returned (Some df) =>
      match iloc_last df with
      | None => failure
      | Some current_last_timestamp =>
          if stalled (last_timestamp st) current_last_timestamp then Break called
          else
            let advanced :=
              mkBatch (all_data called ++ [df])
                (current_last_timestamp + milliseconds 1)
                (Some current_last_timestamp) (batch_num called) 0
                (world called) (requested called) in
            if end_date <=? current_last_timestamp then Break advanced
            else Continue advanced
      end
  end.

(** How the loop ends: the [while] condition fails or a [break] is taken,
    or an exception leaves the function. *)
Inductive loop_end :=
| Finished (st : BatchState)
| Failed (e : exn) (st : BatchState).

Definition final_state (r : loop_end) : BatchState :=
  match r with Finished st | Failed _ st => st end.

(** [while current_start < end_date: ...], with a bound on the number of
    passes; [None] when the bound is too small. *)
Fixpoint batched_loop (fuel : nat) (st : BatchState) : option loop_end :=
  if current_start st <? end_date then
    match fuel with
    | O => None
    | S fuel' =>
        match batch_step st with
        | Continue st' => batched_loop fuel' st'
        | Break st' => Some (Finished st')
        | Abort e st' => Some (Failed e st')
        end
    end
  else Some (Finished st).

(** What the function hands back once the loop is over. *)
Definition outcome (r : loop_end) : fetch_result A * W :=
  match r with
  | Finished st => (Returned (finish (all_data st)), world st)
  | Failed e st => (Raised e, world st)
  end.

Definition batched_fetch (fuel : nat) (start_date : instant) (w : W)
  : option (fetch_result A * W) :=
  outcome <$> batched_loop fuel (init_state start_date w).

(** The number of adapter calls of a run. *)
Definition calls (r : loop_end) : nat := batch_num (final_state r).

(** The state in which a pass leaves the variables. *)
Definition state_of (r : step_result) : BatchState :=
  match r with Continue st | Break st | Abort _ st => st end.

(** [current_end] of the pass that starts in a state. *)
Definition window_end (st : BatchState) : instant :=
  Z.min (current_start st + time_delta) end_date.

(** A call that brings nothing: [None] or a frame without rows. *)
Definition no_data (r : fetch_result A) : Prop :=
  r = Returned None \/ r = Returned (Some []).

(** The state after a call that brought nothing, when the loop goes on. *)
Definition after_failure (st : BatchState) : BatchState :=
  mkBatch (all_data st) (window_end st + milliseconds 1)
    (last_timestamp st) (S (batch_num st)) (S (consecutive_failures st))
    (fetch (current_start st) (window_end st) (world st)).2
    (requested st ++ [(current_start st, window_end st)]).

(** A bound on the passes that are left once a page was taken in: the
    last timestamp can grow up to the end of the range, with at most two
    failures in a row between two pages. *)
Definition remaining (st : BatchState) : nat :=
  match last_timestamp st with
  | Some l => 3 * Z.to_nat (end_date - l) + (2 - consecutive_failures st)
  | None => 0
  end.

End Engine.

Arguments BatchState : clear implicits.
Arguments step_result : clear implicits.
Arguments loop_end : clear implicits.
Arguments window_fetcher : clear implicits.

(** An endpoint adapter as [_get_batched_data] calls it:
    [fetch_func(period=..., start_time=..., end_time=..., limit=...)]. *)
Definition adapter (A W : Type) :=
  string -> instant -> instant -> Z -> W -> fetch_result A * W.

(** [_get_batched_data(fetch_func, data_name, period, start_date, end_date)];
    [data_name] only appears in the printed messages. *)
Definition _get_batched_data {A W} (fuel : nat) (fetch_func : adapter A W)
    (period : string) (start_date end_date : instant) (w : W)
  : option (fetch_result A * W) :=
  batched_fetch (period_step period) end_date
    (fun current_start current_end => fetch_func period current_start current_end 500)
    fuel start_date w.

(** The loop of [_get_batched_data] alone, to count its calls. *)
Definition _get_batched_data_loop {A W} (fuel : nat) (fetch_func : adapter A W)
    (period : string) (start_date end_date : instant) (w : W)
  : option (loop_end A W) :=
  batched_loop (period_step period) end_date
    (fun current_start current_end => fetch_func period current_start current_end 500)
    fuel (init_state start_date w).

(** ** Stub adapters

    Adapters without a network behind them, for the scenarios of the
    specification and for examples. *)

Module Stubs.

(** Every call returns [None]. *)
Definition silent : adapter unit unit :=
  fun _ _ _ _ w => (Returned None, w).

(** Every call returns one row, at the start of the window. *)
Definition at_window_start : adapter unit unit :=
  fun _ start_time _ _ w => (Returned (Some [mkRow start_time tt]), w).

(** Every call returns the same page. *)
Definition fixed_page (df : DataFrame unit) : window_fetcher unit unit :=
  fun _ _ w => (Returned (Some df), w).

(** The state in which the loop starts. *)
Definition fresh (start_date : instant) : BatchState unit unit :=
  init_state start_date tt.

Definition row (t : instant) : Row unit := mkRow t tt.

(** [n] instants, 1 ms apart, from [t] on. *)
Fixpoint ticks (t : instant) (n : nat) : list instant :=
  match n with
  | O => []
  | S n' => t :: ticks (t + milliseconds 1) n'
  end.

(** The number of instants [start_date + k ms] before [end_date], and
    these instants. *)
Definition milliseconds_between (start_date end_date : instant) : Z :=
  (end_date - start_date + 999) / 1000.

Definition every_millisecond (start_date end_date : instant) : list instant :=
  ticks start_date (Z.to_nat (milliseconds_between start_date end_date)).

(** The scenario of the specification: the request
    [2024-01-01T00:00, 2024-01-04T00:00) at a step of one day (a step that
    no period of the table gives, so the loop is taken with the step as
    its parameter), with the stub that answers at the start of the
    window. *)
Definition scenario_start : instant := datetime 2024 1 1.
Definition scenario_end : instant := datetime 2024 1 4.
Definition scenario_step : timedelta := days 1.
Definition scenario_fetch : window_fetcher unit unit :=
  fun current_start current_end => at_window_start "1d" current_start current_end 500.

Definition scenario (fuel : nat) : option (fetch_result unit * unit) :=
  batched_fetch scenario_step scenario_end scenario_fetch fuel scenario_start tt.

(** The number of milliseconds of the range of the scenario. *)
Definition scenario_calls : nat :=
  Z.to_nat (milliseconds_between scenario_start scenario_end).

End Stubs.

(** ** JSON payloads *)

Inductive scalar :=
| SNull
| SBool (b : bool)
| SNum (n : Z)
| SStr (s : string).

(** The JSON documents of the model: a scalar, an object of scalars, an
    object of lists of scalars, and the lists whose items are all objects of
    scalars, all lists of scalars, or all scalars.  An object is a Python
    [dict]; the object without fields is [JObject ∅]. *)
Inductive json :=
| JScalar (s : scalar)
| JObject (fields : gmap string scalar)
| JColumns (fields : gmap string (list scalar))
| JRecords (items : list (gmap string scalar))
| JRows (items : list (list scalar))
| JScalars (items : list scalar).

(** Python's truth value of a payload, as in [if not data]. *)
Definition scalar_truthy (s : scalar) : bool :=
  match s with
  | SNull => false
  | SBool b => b
  | SNum n => negb (n =? 0)
  | SStr s => negb (String.eqb s "")
  end.

Definition nonempty {T} (l : list T) : bool :=
  match l with [] => false | _ => true end.

Definition truthy (data : json) : bool :=
  match data with
  | JScalar s => scalar_truthy s
  | JObject fields => negb (bool_decide (fields = ∅))
  | JColumns fields => negb (bool_decide (fields = ∅))
  | JRecords items => nonempty items
  | JRows items => nonempty items
  | JScalars items => nonempty items
  end.

(** [isinstance(data, list)] *)
Definition is_list (data : json) : bool :=
  match data with
  | JRecords _ | JRows _ | JScalars _ => true
  | _ => false
  end.

(** A scalar or an object of scalars: what [pd.DataFrame(data)] refuses. *)
Definition is_flat (data : json) : bool :=
  match data with
  | JScalar _ | JObject _ => true
  | _ => false
  end.

(** [len(data)] of a list. *)
Definition json_len (data : json) : nat :=
  match data with
  | JRecords items => length items
  | JRows items => length items
  | JScalars items => length items
  | _ => 0
  end.

(** ** The network *)

(** What [session.get(...)], [raise_for_status()] and [response.json()]
    together come to: the decoded payload, or one of the three exception
    classes that [_make_request] catches ([HTTPError] and the JSON decoding
    error of [requests] are [RequestException]s).  The retries that the
    mounted [HTTPAdapter] makes on its own happen inside [session.get]. *)
Inductive get_outcome :=
| Response (payload : json)
| SSLError
| Timeout
| RequestException.

Inductive event :=
| Get (url : string) (params : list (string * scalar))
| Sleep (secs : Z).

Section Network.

(** The remote side, and how it answers one GET. *)
Context {W : Type}.
Variable session_get : string -> list (string * scalar) -> W -> get_outcome * W.

(** The remote side together with the requests sent and the pauses taken
    so far, oldest first. *)
Record Net := mkNet { remote : W; log : list event }.

Definition time_sleep (secs : Z) (n : Net) : Net :=
  mkNet (remote n) (log n ++ [Sleep secs]).

(** [response.json()]: the body [null] is Python's [None], which the
    callers cannot tell from the [None] of a request given up. *)
Definition decoded (payload : json) : option json :=
  match payload with
  | JScalar SNull => None
  | _ => Some payload
  end.

(** The body of an [except] clause of [_make_request]; the three clauses
    have the same body. *)
Definition handler (attempt max_retries : nat) (n : Net)
    (retry : Net -> option json * Net) : option json * Net :=
  if (Z.of_nat attempt <? Z.of_nat max_retries - 1) then
    let wait_time := (Z.of_nat attempt + 1) * 2 in
    retry (time_sleep wait_time n)
  else (None, n).

(** [for attempt in range(max_retries)], from [attempt] on, [remaining]
    passes to go. *)
Fixpoint attempts (remaining attempt max_retries : nat) (url : string)
    (params : list (string * scalar)) (n : Net) : option json * Net :=
  match remaining with
  | O => (None, n)
  | S remaining' =>
      let '(o, w') := session_get url params (remote n) in
      let n' := mkNet w' (log n ++ [Get url params]) in
      let retry := attempts remaining' (S attempt) max_retries url params in
      match o with
      | Response payload => (decoded payload, n')
      | SSLError => handler attempt max_retries n' retry
      | Timeout => handler attempt max_retries n' retry
      | RequestException => handler attempt max_retries n' retry
      end
  end.

(** [_make_request(url, params, max_retries=3)] *)
Definition _make_request (url : string) (params : list (string * scalar))
    (max_retries : nat) (n : Net) : option json * Net :=
  attempts max_retries 0 max_retries url params n.

Definition default_max_retries : nat := 3.

End Network.

Arguments Net : clear implicits.

(** The pauses of a log, the addresses of its GETs, and their number. *)
Definition sleeps (l : list event) : list Z :=
  omap (fun e => match e with Sleep s => Some s | _ => None end) l.

Definition urls (l : list event) : list string :=
  omap (fun e => match e with Get u _ => Some u | _ => None end) l.

Definition gets (l : list event) : nat := length (urls l).

(** ** The fragment of pandas that the adapters use *)

Module Pandas.

Section Cells.

(** The floats of [astype(float)] are kept abstract. *)
Context {F : Type}.

Inductive cell :=
| Raw (s : scalar)
| Datetime (t : instant)
| Float (x : F).

(** A frame before it has a typed timestamp column: the columns that are
    named by a string, and the rows; a cell that a row lacks is a missing
    value (NaN). *)
Record Frame := mkFrame {
  columns : gset string;
  body : list (gmap string cell)
}.

Definition result (T : Type) := (exn + T)%type.

Definition bind {T U} (r : result T) (k : T -> result U) : result U :=
  match r with inl e => inl e | inr x => k x end.

(** The lists of an object of lists are the columns of its frame: row [i]
    has the entries [i] of the lists. *)
Definition column_length (fields : gmap string (list scalar)) : nat :=
  max_list (length <$> (map_to_list fields).*2).

Definition rows_of_columns (fields : gmap string (list scalar))
  : list (gmap string cell) :=
  (fun i => omap (fun column => Raw <$> column !! i) fields)
  <$> seq 0 (column_length fields).

Definition columns_agree (fields : gmap string (list scalar)) : bool :=
  bool_decide
    (map_Forall (fun _ column => length column = column_length fields) fields).

(** [pd.DataFrame(data)] on a truthy payload.  A scalar and an object of
    scalars are refused with a ValueError; an object of lists gives its
    keys as columns and is refused with a ValueError when the lists differ
    in length; a list of objects gives the union of their keys as columns;
    the columns of a list of lists or of scalars are numbered, not
    named. *)
Definition DataFrame_of (data : json) : result Frame :=
  match data with
  | JScalar _ => inl ValueError
  | JObject _ => inl ValueError
  | JColumns fields =>
      if columns_agree fields then inr (mkFrame (dom fields) (rows_of_columns fields))
      else inl ValueError
  | JRecords items =>
      inr (mkFrame (⋃ (dom <$> items)) (fmap (M:=gmap string) Raw <$> items))
  | JRows items => inr (mkFrame ∅ ((fun _ => ∅) <$> items))
  | JScalars items => inr (mkFrame ∅ ((fun _ => ∅) <$> items))
  end.

(** [pd.DataFrame(data, columns=names)]: a list of lists is padded to its
    longest row, which must have as many entries as there are names; of a
    list of objects, and of an object of lists, the named keys are taken; a
    list of scalars has one column and is refused when more are named; a
    scalar and an object of scalars are refused.  ([get_klines], the only
    caller, passes lists.) *)
Definition DataFrame_with_columns (names : list string) (data : json)
  : result Frame :=
  match data with
  | JRows items =>
      if bool_decide (max_list (length <$> items) = length names) then
        inr (mkFrame (list_to_set names)
               ((fun row =>
                   list_to_map
                     (omap (fun '(i, c) => (fun v => (c, Raw v)) <$> row !! i)
                        (imap (fun i c => (i, c)) names)))
                  <$> items))
      else inl ValueError
  | JRecords items =>
      inr (mkFrame (list_to_set names)
             ((fun r =>
                 list_to_map
                   (omap (fun c => (fun v => (c, Raw v)) <$> r !! c) names))
                <$> items))
  | JScalars items =>
      if bool_decide (length names = 1%nat) then
        inr (mkFrame (list_to_set names)
               ((fun v => list_to_map ((fun c => (c, Raw v)) <$> names)) <$> items))
      else inl ValueError
  | JColumns fields =>
      let named := filter (fun kv => kv.1 ∈ names) fields in
      if columns_agree named then
        inr (mkFrame (list_to_set names) (rows_of_columns named))
      else inl ValueError
  | JScalar _ => inl ValueError
  | JObject _ => inl ValueError
  end.

(** [df[c]] *)
Definition getitem (df : Frame) (c : string) : result (list (option cell)) :=
  if bool_decide (c ∈ columns df) then inr ((fun r => r !! c) <$> body df)
  else inl (KeyError c).

(** [df[c] = values] *)
Definition setitem (df : Frame) (c : string) (values : list cell) : Frame :=
  mkFrame (columns df ∪ {[c]})
    (zip_with (fun r v => <[c := v]> r) (body df) values).

(** [df[c] = convert(df[c])] where the conversion of one value may raise. *)
Definition convert_column (convert : option cell -> option cell)
    (c : string) (df : Frame) : result Frame :=
  bind (getitem df c) (fun col =>
    match mapM convert col with
    | Some values => inr (setitem df c values)
    | None => inl (ConversionError c)
    end).

(** [df[[c1, ..., cn]]] *)
Definition select (names : list string) (df : Frame) : result Frame :=
  match filter (fun c => c ∉ columns df) names with
  | [] =>
      inr (mkFrame (list_to_set names)
             ((fun r => filter (fun kv => kv.1 ∈ names) r) <$> body df))
  | c :: _ => inl (KeyError c)
  end.

(** A frame after [df.rename(columns={old: 'timestamp'})].  pandas does
    not ask whether the frame has a column [timestamp] already: if it has,
    and a column [old] too, the frame that [rename] returns has two columns
    of that label. *)
Inductive relabelled :=
| Once (df : Frame)
| Twice (df : Frame).

(** The column [old] of the frame gets the label [timestamp]; [Twice]
    keeps the frame as it was before, with the column still under [old]. *)
Definition rename_to_timestamp (old : string) (df : Frame) : relabelled :=
  if bool_decide (old ∈ columns df ∧ old ≠ "timestamp") then
    if bool_decide ("timestamp" ∈ columns df) then Twice df
    else
      Once (mkFrame (columns df ∖ {[old]} ∪ {["timestamp"]})
              ((fun r =>
                  match r !! old with
                  | Some v => <["timestamp" := v]> (delete old r)
                  | None => delete old r
                  end) <$> body df))
  else Once df.

(** [df[[c1, ..., cn]]] after the renaming of [old]: the names are looked
    up among the new labels, and both columns [timestamp] are taken when
    that label is asked for. *)
Definition select_relabelled (old : string) (names : list string)
    (df : relabelled) : result relabelled :=
  match df with
  | Once df => bind (select names df) (fun df => inr (Once df))
  | Twice df =>
      match filter (fun c => c ∉ columns df ∖ {[old]}) names with
      | [] =>
          if bool_decide ("timestamp" ∈ names) then inr (Twice df)
          else bind (select names df) (fun df => inr (Once df))
      | c :: _ => inl (KeyError c)
      end
  end.

(** The rows of a frame whose [timestamp] column holds datetimes. *)
Definition typed_rows (df : Frame) : DataFrame (gmap string cell) :=
  omap (fun r =>
          match r !! "timestamp" with
          | Some (Datetime t) => Some (mkRow t (delete "timestamp" r))
          | _ => None
          end) (body df).

(** What an adapter returns after its conversions. *)
Definition returned (r : result Frame) : fetch_result (gmap string cell) :=
  match r with
  | inl e => Raised e
  | inr df => Returned (Some (typed_rows df))
  end.

(** The same for [get_funding_rate].  Its frame has at least one row; when
    it has two columns [timestamp], the adapter returns it and the loop
    raises as soon as it reads the timestamps of the page (lines 568-575),
    before another request is made: the embedding, in which a row has one
    timestamp, raises where the frame is handed over. *)
Definition returned_relabelled (r : result relabelled)
  : fetch_result (gmap string cell) :=
  match r with
  | inl e => Raised e
  | inr (Once df) => Returned (Some (typed_rows df))
  | inr (Twice _) => Raised (AmbiguousColumn "timestamp")
  end.

(** [pd.to_datetime(., unit='ms')] and [.astype(float)] on one value; the
    argument [None] is a missing value, the result [None] an exception.
    [pd.to_datetime] turns a missing value into [NaT] and raises nothing;
    the exception comes later, when a [NaT] is printed with [strftime]
    (lines 496 and 527).  A frame with a [NaT] among its timestamps has no
    place in this development, whose rows all have a timestamp: a
    [to_datetime] that gives [None] for [None] ends the series with an
    exception at once, where pandas ends it with an exception later.  The
    theorems about the rows of a page ask for records that all have their
    timestamp. *)
Variable to_datetime : option scalar -> option instant.
Variable to_float : option scalar -> option F.

Definition raw (c : option cell) : option (option scalar) :=
  match c with
  | None => Some None
  | Some (Raw s) => Some (Some s)
  | Some _ => None
  end.

Definition to_datetime_ms (c : option cell) : option cell :=
  s ← raw c; Datetime <$> to_datetime s.

Definition astype_float (c : option cell) : option cell :=
  match c with
  | Some (Float x) => Some (Float x)
  | _ => s ← raw c; Float <$> to_float s
  end.

(** The conversions of a column to datetimes and of columns to floats,
    left to right. *)
Definition with_datetime (c : string) (df : Frame) : result Frame :=
  convert_column to_datetime_ms c df.

Definition with_floats (cs : list string) (df : Frame) : result Frame :=
  foldl (fun r c => bind r (convert_column astype_float c)) (inr df) cs.

End Cells.

Arguments cell : clear implicits.
Arguments Frame : clear implicits.

End Pandas.

(** ** The endpoint adapters *)

Section Adapters.

Import Pandas.

Context {W F : Type}.
Variable session_get : string -> list (string * scalar) -> W -> get_outcome * W.
Variable to_datetime : option scalar -> option instant.
Variable to_float : option scalar -> option F.

(** [self.symbol] *)
Variable symbol : string.

Definition base_url : string := "https://fapi.binance.com".

Definition row_cells := gmap string (cell F).

(** [int(t.timestamp() * 1000)]: the instant in milliseconds since the
    epoch (the rounding of the float product is not modelled). *)
Definition epoch_ms (t : instant) : Z := Z.quot t 1000.

(** [if start_time: params['startTime'] = start_time], and the same for
    [end_time]. *)
Definition time_params (start_time end_time : instant)
  : list (string * scalar) :=
  (if epoch_ms start_time =? 0 then [] else [("startTime", SNum (epoch_ms start_time))])
  ++ (if epoch_ms end_time =? 0 then [] else [("endTime", SNum (epoch_ms end_time))]).

Definition request (url : string) (params : list (string * scalar)) (n : Net W)
  : option json * Net W :=
  _make_request session_get url params default_max_retries n.

(** An adapter whose only check is [if not data: return None]. *)
Definition unchecked (columns : list string) (data : option json)
  : fetch_result row_cells :=
  match data with
  | None => Returned None
  | Some payload =>
      if negb (truthy payload) then Returned None
      else
        returned
          (bind (DataFrame_of payload) (fun df =>
           bind (with_datetime to_datetime "timestamp" df)
             (with_floats to_float columns)))
  end.

Definition get_open_interest_hist : adapter row_cells (Net W) :=
  fun period start_time end_time limit n =>
    let url := base_url +:+ "/futures/data/openInterestHist" in
    let params :=
      [("symbol", SStr symbol); ("period", SStr period); ("limit", SNum limit)]
      ++ time_params start_time end_time in
    let '(data, n') := request url params n in
    (unchecked ["sumOpenInterest"; "sumOpenInterestValue"] data, n').

Definition ratio_columns : list string :=
  ["longShortRatio"; "longAccount"; "shortAccount"].

Definition get_top_long_short_account_ratio : adapter row_cells (Net W) :=
  fun period start_time end_time limit n =>
    let url := base_url +:+ "/futures/data/topLongShortAccountRatio" in
    let params :=
      [("symbol", SStr symbol); ("period", SStr period); ("limit", SNum limit)]
      ++ time_params start_time end_time in
    let '(data, n') := request url params n in
    (unchecked ratio_columns data, n').

Definition get_top_long_short_position_ratio : adapter row_cells (Net W) :=
  fun period start_time end_time limit n =>
    let url := base_url +:+ "/futures/data/topLongShortPositionRatio" in
    let params :=
      [("symbol", SStr symbol); ("period", SStr period); ("limit", SNum limit)]
      ++ time_params start_time end_time in
    let '(data, n') := request url params n in
    (unchecked ratio_columns data, n').

Definition get_global_long_short_account_ratio : adapter row_cells (Net W) :=
  fun period start_time end_time limit n =>
    let url := base_url +:+ "/futures/data/globalLongShortAccountRatio" in
    let params :=
      [("symbol", SStr symbol); ("period", SStr period); ("limit", SNum limit)]
      ++ time_params start_time end_time in
    let '(data, n') := request url params n in
    (unchecked ratio_columns data, n').

(** The checks of [get_basis_data], [get_funding_rate] and [get_klines]:
    [not data], [not isinstance(data, list)], [len(data) == 0]. *)
Definition usable_list (data : option json) : option json :=
  match data with
  | None => None
  | Some payload =>
      if negb (truthy payload) then None
      else if negb (is_list payload) then None
      else if (json_len payload =? 0)%nat then None
      else Some payload
  end.

Definition get_basis_data : adapter row_cells (Net W) :=
  fun period start_time end_time limit n =>
    let url := base_url +:+ "/futures/data/basis" in
    let params :=
      [("pair", SStr symbol); ("contractType", SStr "PERPETUAL");
       ("period", SStr period); ("limit", SNum limit)]
      ++ time_params start_time end_time in
    let '(data, n') := request url params n in
    match usable_list data with
    | None => (Returned None, n')
    | Some payload =>
        (returned
           (bind (DataFrame_of payload) (fun df =>
            bind (with_datetime to_datetime "timestamp" df)
              (with_floats to_float ["basisRate"; "basis"]))), n')
    end.

(** [get_funding_rate(start_time, end_time, limit)] *)
Definition get_funding_rate (start_time end_time : instant) (limit : Z)
    (n : Net W) : fetch_result row_cells * Net W :=
  let url := base_url +:+ "/fapi/v1/fundingRate" in
  let params :=
    [("symbol", SStr symbol); ("limit", SNum (Z.min limit 1000))]
    ++ time_params start_time end_time in
  let '(data, n') := request url params n in
  match usable_list data with
  | None => (Returned None, n')
  | Some payload =>
      (returned_relabelled
         (bind (DataFrame_of payload) (fun df =>
          bind (with_datetime to_datetime "fundingTime" df) (fun df =>
          bind (with_floats to_float ["fundingRate"] df) (fun df =>
          select_relabelled "fundingTime" ["timestamp"; "fundingRate"]
            (rename_to_timestamp "fundingTime" df))))), n')
  end.

Definition kline_columns : list string :=
  ["timestamp"; "open"; "high"; "low"; "close"; "volume"; "close_time";
   "quote_volume"; "trades"; "taker_buy_volume"; "taker_buy_quote_volume";
   "ignore"].

Definition get_klines : adapter row_cells (Net W) :=
  fun period start_time end_time limit n =>
    let url := base_url +:+ "/fapi/v1/klines" in
    let params :=
      [("symbol", SStr symbol); ("interval", SStr period);
       ("limit", SNum (Z.min limit 1500))]
      ++ time_params start_time end_time in
    let '(data, n') := request url params n in
    match usable_list data with
    | None => (Returned None, n')
    | Some payload =>
        (returned
           (bind (DataFrame_with_columns kline_columns payload) (fun df =>
            bind (with_datetime to_datetime "timestamp" df) (fun df =>
            bind (with_floats to_float ["open"; "high"; "low"; "close"; "volume"] df)
              (select ["timestamp"; "open"; "high"; "low"; "close"; "volume"])))),
         n')
    end.


(** The addresses of the seven series, in the order in which the
    aggregator fetches them. *)
Definition endpoint_urls : list string :=
  (fun endpoint => base_url +:+ endpoint) <$>
  ["/futures/data/openInterestHist"; "/futures/data/topLongShortAccountRatio";
   "/futures/data/topLongShortPositionRatio";
   "/futures/data/globalLongShortAccountRatio"; "/futures/data/basis";
   "/fapi/v1/klines"; "/fapi/v1/fundingRate"].

(** ** The two batching functions and the aggregator *)

(** [_get_batched_funding_rate(start_date, end_date)]: the loop of
    [_get_batched_data] once more, with a step of 300 days and
    [get_funding_rate(..., limit=1000)] as the call. *)
Definition _get_batched_funding_rate (fuel : nat)
    (start_date end_date : instant) (n : Net W)
  : option (fetch_result row_cells * Net W) :=
  batched_fetch (days 300) end_date
    (fun current_start current_end => get_funding_rate current_start current_end 1000)
    fuel start_date n.

Record Bundle := mkBundle {
  open_interest : option (DataFrame row_cells);
  top_account_ratio : option (DataFrame row_cells);
  top_position_ratio : option (DataFrame row_cells);
  global_ratio : option (DataFrame row_cells);
  basis : option (DataFrame row_cells);
  klines : option (DataFrame row_cells);
  funding_rate : option (DataFrame row_cells)
}.

(** What the aggregator does: it returns the bundle, or an exception
    leaves it. *)
Inductive aggregate :=
| Collected (b : Bundle)
| Escaped (e : exn).

(** One series, then the rest: an exception that the series raised is not
    caught. *)
Definition then_series
    (series : Net W -> option (fetch_result row_cells * Net W))
    (rest : option (DataFrame row_cells) -> Net W -> option (aggregate * Net W))
    (n : Net W) : option (aggregate * Net W) :=
  match series n with
  | None => None
  | Some (Raised e, n') => Some (Escaped e, n')
  | Some (Returned table, n') => rest table n'
  end.

(** [get_all_comprehensive_data(period, start_date, end_date)] for two
    [datetime] arguments (the parsing of date strings and the defaults
    taken from the clock come before the part embedded here).  Every
    series gets the same bound on the passes of its loop. *)
Definition get_all_comprehensive_data (fuel : nat) (period : string)
    (start_date end_date : instant) : Net W -> option (aggregate * Net W) :=
  let batched f := _get_batched_data fuel f period start_date end_date in
  then_series (batched get_open_interest_hist) (fun oi_data =>
  then_series (batched get_top_long_short_account_ratio) (fun top_account =>
  then_series (batched get_top_long_short_position_ratio) (fun top_position =>
  then_series (batched get_global_long_short_account_ratio) (fun global =>
  then_series (batched get_basis_data) (fun basis_data =>
  then_series (batched get_klines) (fun klines_data =>
  then_series (_get_batched_funding_rate fuel start_date end_date)
    (fun funding_rate_data n =>
       Some (Collected
               (mkBundle oi_data top_account top_position global basis_data
                  klines_data funding_rate_data), n)))))))).

(** The bundle of a run in which no series brought anything. *)
Definition empty_bundle : Bundle :=
  mkBundle None None None None None None None.

End Adapters.

(** ** Conditions on the network *)

Section Conditions.

Context {W : Type}.

(** One log is the other with more events behind. *)
Definition extends (n n' : Net W) : Prop := exists evs, log n' = log n ++ evs.

(** An answer that is no payload. *)
Definition failed (o : get_outcome) : Prop :=
  match o with Response _ => False | _ => True end.


(** Every GET ends in an exception or in a payload that Python takes for
    false. *)
Definition barren
    (session_get : string -> list (string * scalar) -> W -> get_outcome * W)
  : Prop :=
  forall url params w,
    match (session_get url params w).1 with
    | Response payload => truthy payload = false
    | _ => True
    end.

(** The same for the GETs to one address. *)
Definition barren_at
    (session_get : string -> list (string * scalar) -> W -> get_outcome * W)
    (url : string) : Prop :=
  forall params w,
    match (session_get url params w).1 with
    | Response payload => truthy payload = false
    | _ => True
    end.

End Conditions.

(** A server that times out on every attempt, and one that answers every
    request with a list of one object that has no [timestamp]. *)
Module Servers.

Definition timing_out : string -> list (string * scalar) -> unit -> get_outcome * unit :=
  fun _ _ w => (Timeout, w).


Definition offline : Net unit := mkNet tt [].

(** Conversions for a model without floats: nothing converts. *)
Definition no_datetime : option scalar -> option instant := fun _ => None.
Definition no_float : option scalar -> option unit := fun _ => None.

End Servers.

(** * The rest of the two programs *)

(** ** What a run of the loop keeps *)

Section Runs.

Context {A W : Type}.
Variable time_delta : timedelta.
Variable end_date : instant.

(** A window that the loop may ask for: not empty, not past the end of the
    range, not wider than the step. *)
Definition within_step (window : instant * instant) : Prop :=
  window.1 < window.2 /\ window.2 <= end_date /\ window.2 - window.1 <= time_delta.

(** The last timestamps of the pages taken in, oldest page first. *)
Definition page_ends (pages : list (DataFrame A)) : list instant :=
  omap iloc_last pages.

(** What holds of the variables whenever the [while] condition is tested
    and when the loop is left. *)
Definition run_invariant (st : BatchState A W) : Prop :=
  batch_num st = length (requested st) /\
  (consecutive_failures st <= max_consecutive_failures)%nat /\
  Forall within_step (requested st) /\
  Forall (fun df => df <> []) (all_data st) /\
  StronglySorted Z.lt (page_ends (all_data st)) /\
  last_timestamp st = last (page_ends (all_data st)).

(** The states in which the [while] condition is tested in the run that
    starts in [st0]: the first one, and the one at the bottom of every pass
    that does not end in a [break] or an exception. *)
Inductive reaches (fetch : window_fetcher A W) (st0 : BatchState A W)
  : BatchState A W -> Prop :=
| reaches_start : reaches fetch st0 st0
| reaches_pass st st' :
    reaches fetch st0 st ->
    current_start st < end_date ->
    batch_step time_delta end_date fetch st = Continue st' ->
    reaches fetch st0 st'.

(** The states of that run: those in which the condition is tested, and
    those in which a pass ends, whichever way. *)
Definition visits (fetch : window_fetcher A W) (st0 st' : BatchState A W) : Prop :=
  reaches fetch st0 st' \/
  exists st, reaches fetch st0 st /\ current_start st < end_date /\
             st' = state_of (batch_step time_delta end_date fetch st).

(** The windows asked for so far start one after the other, all before the
    cursor. *)
Definition starts_before_cursor (st : BatchState A W) : Prop :=
  StronglySorted Z.lt ((requested st).*1) /\
  Forall (fun a => a < current_start st) ((requested st).*1).

End Runs.

(** ** The trace of a request *)

(** What [_make_request] leaves in the log when it makes [gets] attempts,
    the first of them with index [attempt]: the GETs, and between two of
    them the pause taken after the failed one. *)
Fixpoint retry_trace (url : string) (params : list (string * scalar))
    (attempt gets : nat) : list event :=
  match gets with
  | O => []
  | S O => [Get url params]
  | S (S _ as more) =>
      Get url params :: Sleep ((Z.of_nat attempt + 1) * 2)
      :: retry_trace url params (S attempt) more
  end.

(** ** Rows under conversion *)

Section Converted.

Import Pandas.

Context {F : Type}.

(** A row after the conversion of its cell in column [c], when the
    conversion succeeds. *)
Definition converted (convert : option (cell F) -> option (cell F)) (c : string)
    (r : gmap string (cell F)) : gmap string (cell F) :=
  match convert (r !! c) with
  | Some v => <[c := v]> r
  | None => r
  end.

(** An open-interest record with the three fields that the adapter
    converts, all convertible. *)
Definition open_interest_record
    (to_datetime : option scalar -> option instant)
    (to_float : option scalar -> option F) (item : gmap string scalar) : Prop :=
  is_Some (item !! "timestamp") /\
  is_Some (to_datetime (item !! "timestamp")) /\
  is_Some (item !! "sumOpenInterest") /\
  is_Some (to_float (item !! "sumOpenInterest")) /\
  is_Some (item !! "sumOpenInterestValue") /\
  is_Some (to_float (item !! "sumOpenInterestValue")).

End Converted.

(** ** The bundle of the aggregator and [main] *)

Section Bundles.

Context {F : Type}.

Abbreviation series := (option (DataFrame (row_cells (F:=F)))).

(** The values of the dictionary that [get_all_comprehensive_data] returns,
    in the order of its keys. *)
Definition series_in_order (b : Bundle (F:=F)) : list series :=
  [open_interest b; top_account_ratio b; top_position_ratio b; global_ratio b;
   basis b; klines b; funding_rate b].

(** A series as the batching loop leaves it: [None], or a frame with rows
    in strictly ascending order of timestamp. *)
Definition proper_series (s : series) : Prop :=
  match s with
  | None => True
  | Some df => df <> [] /\ strictly_ascending df
  end.

(** [any(data_dict.get(key) is not None for key in data_dict.keys())] *)
Definition has_data (b : Bundle (F:=F)) : bool :=
  existsb (fun s : series => match s with Some _ => true | None => false end)
    (series_in_order b).

(** Lines 918-925 of [main]: the first and the last timestamp of the first
    series that is there, [iloc[0]] and [iloc[-1]] raising an IndexError on
    a frame without rows. *)
Inductive data_range :=
| NoRange
| Range (actual_start actual_end : instant)
| IndexError.

Fixpoint first_range (l : list series) : data_range :=
  match l with
  | [] => NoRange
  | None :: rest => first_range rest
  | Some df :: _ =>
      match head df, last df with
      | Some first, Some final => Range (timestamp first) (timestamp final)
      | _, _ => IndexError
      end
  end.

Definition actual_range (b : Bundle (F:=F)) : data_range :=
  first_range (series_in_order b).

End Bundles.

(** A computation that is given a bound on the passes of its loops ends:
    some bound is enough for a result, and a larger bound gives the same
    result. *)
Definition ends {S R : Type} (run : nat -> S -> option R) : Prop :=
  (forall s, exists fuel, is_Some (run fuel s)) /\
  (forall fuel fuel' s x, run fuel s = Some x -> (fuel <= fuel')%nat -> run fuel' s = Some x).

(** ** The sheet that [export_to_excel] writes and [validate_columns] reads *)

Section Sheets.

Context {F : Type}.

Open Scope string_scope.

(** The labels of the frame that [export_to_excel] builds for a series. *)
Definition open_interest_labels : list string :=
  ["时间"; "持仓量"; "持仓价值(USD)"].
Definition top_account_labels : list string :=
  ["时间"; "大户账户多空比"; "大户多头账户占比"; "大户空头账户占比"].
Definition top_position_labels : list string :=
  ["时间"; "大户持仓多空比"; "大户多头持仓占比"; "大户空头持仓占比"].
Definition global_labels : list string :=
  ["时间"; "全市场多空比"; "全市场多头人数占比"; "全市场空头人数占比"].
Definition basis_labels : list string :=
  ["时间"; "基差"; "基差率"].
Definition klines_labels : list string :=
  ["时间"; "开盘价"; "最高价"; "最低价"; "收盘价"; "成交量"].
Definition funding_rate_labels : list string :=
  ["时间"; "资金费率"].

(** The labels of [pd.merge(left, right, on=key, how='outer')]: the labels
    of [left], then those of [right] but the key; a label other than the key
    that both sides have gets the suffix [_x] on the left and [_y] on the
    right. *)
Definition merge_labels (left right : list string) (key : string) : list string :=
  let shared c := bool_decide (c <> key /\ c ∈ left /\ c ∈ right) in
  ((fun c => if shared c then c +:+ "_x" else c) <$> left)
  ++ ((fun c => if shared c then c +:+ "_y" else c)
        <$> filter (fun c => c <> key) right).

(** One of the seven steps of [export_to_excel]: a series that is there is
    merged into [merged_df], or becomes it. *)
Definition add_series (s : option (DataFrame (row_cells (F:=F))))
    (labels : list string) (merged_df : option (list string))
  : option (list string) :=
  match s with
  | None => merged_df
  | Some _ =>
      match merged_df with
      | Some merged => Some (merge_labels merged labels "时间")
      | None => Some labels
      end
  end.

(** The labels of the sheet that [export_to_excel] writes for a bundle of
    frames as the adapters return them, when no step raises; [None] when
    there is nothing to export.  (The cells are floats and strings made of
    them; they are not modelled.) *)
Definition export_labels (b : Bundle (F:=F)) : option (list string) :=
  let merged_df := add_series (open_interest b) open_interest_labels None in
  let merged_df := add_series (top_account_ratio b) top_account_labels merged_df in
  let merged_df := add_series (top_position_ratio b) top_position_labels merged_df in
  let merged_df := add_series (global_ratio b) global_labels merged_df in
  let merged_df := add_series (basis b) basis_labels merged_df in
  let merged_df := add_series (klines b) klines_labels merged_df in
  add_series (funding_rate b) funding_rate_labels merged_df.

End Sheets.

(** [validate_columns(df)] of the plotting program, on the labels of the
    frame. *)
Definition required_columns : list string :=
  ["时间"; "持仓量"; "持仓价值(USD)";
   "大户账户多空比"; "大户多头账户占比"; "大户空头账户占比";
   "大户持仓多空比"; "大户多头持仓占比"; "大户空头持仓占比";
   "全市场多空比"; "全市场多头人数占比"; "全市场空头人数占比";
   "基差"; "基差率"; "资金费率"]%string.

Definition optional_columns : list string :=
  ["收盘价"; "开盘价"; "最高价"; "最低价"]%string.

Definition missing_columns (wanted columns : list string) : list string :=
  filter (fun col => col ∉ columns) wanted.

(** The optional labels that are missing are printed and do not change
    what is returned. *)
Definition validate_columns (columns : list string) : bool :=
  match missing_columns required_columns columns with
  | [] => true
  | _ => false
  end.

(** Whether a series is there. *)
Definition there {T : Type} (s : option T) : bool :=
  match s with Some _ => true | None => false end.

(** ** The order of the requests *)

(** The log grew by requests to one address only. *)
Definition only_to {W : Type} (u : string) (n n' : Net W) : Prop :=
  exists k, urls (log n') = urls (log n) ++ replicate k u.

(** [counts !! i] requests to the address [addresses !! i], address after
    address. *)
Definition in_blocks (counts : list nat) (addresses : list string) : list string :=
  concat (zip_with replicate counts addresses).

(** ** More servers *)

Module Replies.

(** A server that answers every request with an error object. *)
Definition error_body : json :=
  JObject {[ "code" := SNum (-1121); "msg" := SStr "Invalid symbol." ]}.

Definition refusing : string -> list (string * scalar) -> unit -> get_outcome * unit :=
  fun _ _ w => (Response error_body, w).

(** A server that answers every request with the same two open-interest
    records, and conversions that take integers only. *)
Definition two_items : list (gmap string scalar) :=
  [ {[ "symbol" := SStr "BTCUSDT"; "timestamp" := SNum 1000;
       "sumOpenInterest" := SNum 5; "sumOpenInterestValue" := SNum 7 ]};
    {[ "symbol" := SStr "BTCUSDT"; "timestamp" := SNum 2000;
       "sumOpenInterest" := SNum 6; "sumOpenInterestValue" := SNum 8 ]} ].

Definition two_records : json := JRecords two_items.

Definition answering : string -> list (string * scalar) -> unit -> get_outcome * unit :=
  fun _ _ w => (Response two_records, w).

Definition integer_milliseconds (v : option scalar) : option instant :=
  match v with
  | Some (SNum ms) => Some (milliseconds ms)
  | _ => None
  end.

Definition integer_float (v : option scalar) : option Z :=
  match v with
  | Some (SNum x) => Some x
  | _ => None
  end.

(** An exchange that answers every request with a page of two entries, one
    second and two seconds after the start of 2024, in the shape of the
    endpoint asked: records of open interest, of a ratio, of the basis, of
    the funding rate (with [fundingTime], without [timestamp]), and lists
    of twelve values for the candles. *)
Definition page_times : list Z := [1704067201000; 1704067202000].

Definition open_interest_item (ms : Z) : gmap string scalar :=
  list_to_map
    [("symbol", SStr "BTCUSDT"); ("sumOpenInterest", SNum 5);
     ("sumOpenInterestValue", SNum 7); ("timestamp", SNum ms)].

Definition ratio_item (ms : Z) : gmap string scalar :=
  list_to_map
    [("symbol", SStr "BTCUSDT"); ("longShortRatio", SNum 2);
     ("longAccount", SNum 3); ("shortAccount", SNum 1); ("timestamp", SNum ms)].

Definition basis_item (ms : Z) : gmap string scalar :=
  list_to_map
    [("pair", SStr "BTCUSDT"); ("contractType", SStr "PERPETUAL");
     ("indexPrice", SNum 100); ("futuresPrice", SNum 104); ("basis", SNum 4);
     ("basisRate", SNum 1); ("timestamp", SNum ms)].

Definition funding_item (ms : Z) : gmap string scalar :=
  list_to_map
    [("symbol", SStr "BTCUSDT"); ("fundingTime", SNum ms);
     ("fundingRate", SNum 1); ("markPrice", SNum 104)].

Definition kline_row (ms : Z) : list scalar :=
  [SNum ms; SNum 10; SNum 12; SNum 9; SNum 11; SNum 100; SNum (ms + 999);
   SNum 1000; SNum 42; SNum 50; SNum 500; SNum 0].

Definition exchange_page (url : string) : json :=
  if bool_decide (url = "https://fapi.binance.com/futures/data/openInterestHist")
  then JRecords (open_interest_item <$> page_times)
  else if bool_decide (url = "https://fapi.binance.com/futures/data/basis")
  then JRecords (basis_item <$> page_times)
  else if bool_decide (url = "https://fapi.binance.com/fapi/v1/fundingRate")
  then JRecords (funding_item <$> page_times)
  else if bool_decide (url = "https://fapi.binance.com/fapi/v1/klines")
  then JRows (kline_row <$> page_times)
  else JRecords (ratio_item <$> page_times).

Definition exchange : string -> list (string * scalar) -> unit -> get_outcome * unit :=
  fun url _ w => (Response (exchange_page url), w).

(** The same exchange with the endpoint of the open interest down: every
    request to it times out. *)
Definition open_interest_down
  : string -> list (string * scalar) -> unit -> get_outcome * unit :=
  fun url params w =>
    if bool_decide (url = "https://fapi.binance.com/futures/data/openInterestHist")
    then (Timeout, w)
    else exchange url params w.

(** The same exchange with funding records that carry a [timestamp]
    beside their [fundingTime]. *)
Definition funding_item_with_timestamp (ms : Z) : gmap string scalar :=
  <["timestamp" := SNum ms]> (funding_item ms).

Definition funding_with_timestamps
  : string -> list (string * scalar) -> unit -> get_outcome * unit :=
  fun url params w =>
    if bool_decide (url = "https://fapi.binance.com/fapi/v1/fundingRate")
    then (Response (JRecords (funding_item_with_timestamp <$> page_times)), w)
    else exchange url params w.

(** The runs of the aggregator against the first two, for the first second
    and a half of 2024, and what they leave. *)
Definition range_start : instant := datetime 2024 1 1.
Definition range_end : instant := datetime 2024 1 1 + milliseconds 1500.

Definition full_run : option (aggregate (F:=Z) * Net unit) :=
  get_all_comprehensive_data exchange integer_milliseconds integer_float
    "BTCUSDT" 1 "5m" range_start range_end Servers.offline.

Definition full_bundle : Bundle (F:=Z) :=
  match full_run with
  | Some (Collected b, _) => b
  | _ => empty_bundle
  end.

Definition full_net : Net unit :=
  match full_run with
  | Some (_, n) => n
  | None => Servers.offline
  end.

Definition partial_run : option (aggregate (F:=Z) * Net unit) :=
  get_all_comprehensive_data open_interest_down integer_milliseconds integer_float
    "BTCUSDT" 1 "5m" range_start range_end Servers.offline.

Definition partial_bundle : Bundle (F:=Z) :=
  match partial_run with
  | Some (Collected b, _) => b
  | _ => empty_bundle
  end.

Definition partial_net : Net unit :=
  match partial_run with
  | Some (_, n) => n
  | None => Servers.offline
  end.

End Replies.

(** * Theorems *)

Section MergeFacts.

Context {A : Type}.
Implicit Types (r x : Row A) (df : DataFrame A) (k : instant).

Local Abbreviation other k := (fun x : Row A => timestamp x ≠ k).
Local Abbreviation not_before r := (fun x : Row A => timestamp r <= timestamp x).

Lemma Forall_filter_keep (Q P : Row A → Prop) `{!∀ x, Decision (P x)} df :
  Forall Q df → Forall Q (filter P df).
Proof.
  rewrite !Forall_forall. intros HQ x [_ Hx]%list_elem_of_filter. auto.
Qed.

Lemma ascending_cons x df :
  ascending (x :: df) ↔ Forall (not_before x) df ∧ ascending df.
Proof. apply StronglySorted_cons. Qed.

Lemma strictly_ascending_cons x df :
  strictly_ascending (x :: df) ↔
  Forall (fun y => timestamp x < timestamp y) df ∧ strictly_ascending df.
Proof. apply StronglySorted_cons. Qed.

Lemma strictly_ascending_ascending df : strictly_ascending df → ascending df.
Proof.
  induction df as [|x df IH]; [constructor|].
  rewrite strictly_ascending_cons, ascending_cons. intros [Hx Hdf].
  split; [|auto]. eapply Forall_impl; [exact Hx|]. simpl; intros; lia.
Qed.

(** A row that is not newer than any row of the frame goes in front. *)
Lemma insert_row_front r df :
  Forall (not_before r) df → insert_row r df = r :: df.
Proof.
  destruct df as [|x df]; [done|]. intros H%Forall_cons_1. simpl.
  destruct H as [H _]. apply Z.leb_le in H. by rewrite H.
Qed.

Lemma Forall_insert_row (P : Row A → Prop) r df :
  P r → Forall P df → Forall P (insert_row r df).
Proof.
  intros Hr. induction 1 as [|x df Hx Hdf IH]; simpl.
  - by constructor.
  - destruct (timestamp r <=? timestamp x); repeat constructor; auto.
Qed.

Lemma ascending_insert_row r df : ascending df → ascending (insert_row r df).
Proof.
  induction df as [|x df IH]; simpl; intros Hdf.
  - repeat constructor.
  - destruct (timestamp r <=? timestamp x) eqn:E.
    + apply Z.leb_le in E. apply ascending_cons. split; [|done].
      apply ascending_cons in Hdf as [Hx _]. constructor; [done|].
      eapply Forall_impl; [exact Hx|]. simpl; intros; lia.
    + apply Z.leb_gt in E. apply ascending_cons in Hdf as [Hx Hdf].
      apply ascending_cons. split; [|auto].
      apply Forall_insert_row; [lia|done].
Qed.

Lemma ascending_sort_values df : ascending (sort_values df).
Proof.
  induction df as [|x df IH]; simpl; [constructor|].
  by apply ascending_insert_row.
Qed.

(** Sorting a frame that is in order changes nothing. *)
Lemma sort_values_ascending df : ascending df → sort_values df = df.
Proof.
  induction df as [|x df IH]; [done|].
  intros [Hx Hdf]%ascending_cons. simpl. fold (sort_values df).
  rewrite IH by done. by apply insert_row_front.
Qed.

Lemma ascending_filter (P : Row A → Prop) `{!∀ x, Decision (P x)} df :
  ascending df → ascending (filter P df).
Proof.
  induction df as [|x df IH]; [done|]. intros [Hx Hdf]%ascending_cons.
  rewrite filter_cons. case_decide; [|auto].
  apply ascending_cons. split; [|auto]. by apply Forall_filter_keep.
Qed.

Lemma filter_insert_row k r df :
  ascending df →
  filter (other k) (insert_row r df) =
  if bool_decide (timestamp r ≠ k) then insert_row r (filter (other k) df)
  else filter (other k) df.
Proof.
  induction df as [|x df IH]; cbn [insert_row]; intros Hdf.
  - rewrite filter_cons, filter_nil.
    destruct (decide (timestamp r ≠ k)) as [Hr|Hr].
    + by rewrite bool_decide_true.
    + by rewrite bool_decide_false.
  - apply ascending_cons in Hdf as [Hx Hdf].
    destruct (timestamp r <=? timestamp x) eqn:E.
    + rewrite (filter_cons _ r).
      destruct (decide (timestamp r ≠ k)) as [Hr|Hr].
      * rewrite bool_decide_true by done.
        symmetry. apply insert_row_front.
        apply Forall_filter_keep. apply Z.leb_le in E. constructor; [done|].
        eapply Forall_impl; [exact Hx|]. simpl; intros; lia.
      * by rewrite bool_decide_false.
    + rewrite !(filter_cons _ x), IH by done.
      destruct (decide (timestamp x ≠ k)) as [Hk|Hk]; [|done].
      destruct (decide (timestamp r ≠ k)) as [Hr|Hr].
      * rewrite bool_decide_true by done. cbn [insert_row]. by rewrite E.
      * by rewrite bool_decide_false.
Qed.

Lemma filter_sort_values k df :
  filter (other k) (sort_values df) = sort_values (filter (other k) df).
Proof.
  induction df as [|x df IH]; [done|]. simpl. fold (sort_values df).
  rewrite filter_insert_row by apply ascending_sort_values.
  rewrite filter_cons, IH. case_decide; case_bool_decide; done.
Qed.

Lemma filter_other_comm k1 k2 df :
  filter (other k1) (filter (other k2) df) =
  filter (other k2) (filter (other k1) df).
Proof.
  induction df as [|x df IH]; [done|].
  rewrite !filter_cons. repeat (case_decide; rewrite ?filter_cons); congruence.
Qed.

Lemma filter_other_idemp k df :
  filter (other k) (filter (other k) df) = filter (other k) df.
Proof.
  induction df as [|x df IH]; [done|].
  rewrite !filter_cons. repeat (case_decide; rewrite ?filter_cons); congruence.
Qed.

Lemma filter_drop_duplicates k df :
  filter (other k) (drop_duplicates df) = drop_duplicates (filter (other k) df).
Proof.
  induction df as [|x df IH]; [done|]. simpl.
  rewrite !filter_cons. case_decide; simpl.
  - by rewrite filter_other_comm, IH.
  - rewrite <- IH. replace k with (timestamp x) by (destruct (decide (timestamp x = k)); done).
    by rewrite filter_other_idemp.
Qed.

Lemma Forall_drop_duplicates (Q : Row A → Prop) df :
  Forall Q df → Forall Q (drop_duplicates df).
Proof.
  induction 1 as [|x df Hx Hdf IH]; simpl; [constructor|].
  constructor; [done|]. by apply Forall_filter_keep.
Qed.

Lemma ascending_drop_duplicates df :
  ascending df → ascending (drop_duplicates df).
Proof.
  induction df as [|x df IH]; [done|]. intros [Hx Hdf]%ascending_cons.
  simpl. apply ascending_cons. split.
  - by apply Forall_filter_keep, Forall_drop_duplicates.
  - apply ascending_filter; auto.
Qed.

(** Dropping duplicates after a row was put in its place: the row stays and
    removes the rows of its timestamp behind it. *)
Lemma drop_duplicates_insert_row r df :
  ascending df →
  drop_duplicates (insert_row r df) =
  insert_row r (filter (other (timestamp r)) (drop_duplicates df)).
Proof.
  induction df as [|x df IH]; [done|]. intros [Hx Hdf]%ascending_cons.
  cbn [insert_row]. destruct (timestamp r <=? timestamp x) eqn:E.
  - cbn [drop_duplicates]. symmetry. rewrite insert_row_front; [done|].
    apply Z.leb_le in E. apply Forall_filter_keep.
    constructor; [done|]. apply Forall_filter_keep, Forall_drop_duplicates.
    eapply Forall_impl; [exact Hx|]. simpl; intros; lia.
  - apply Z.leb_gt in E. cbn [drop_duplicates]. rewrite IH by done.
    rewrite filter_insert_row
      by (apply ascending_filter, ascending_drop_duplicates; done).
    rewrite bool_decide_true by lia.
    rewrite (filter_cons _ x), decide_True by lia.
    cbn [insert_row]. replace (timestamp r <=? timestamp x) with false by lia.
    by rewrite filter_other_comm.
Qed.

(** Dropping duplicates and sorting commute: of the rows of one timestamp
    both orders keep the one that came first. *)
Lemma drop_duplicates_sort_values df :
  drop_duplicates (sort_values df) = sort_values (drop_duplicates df).
Proof.
  induction df as [|x df IH]; [done|].
  cbn [sort_values foldr drop_duplicates]. fold (sort_values df).
  rewrite drop_duplicates_insert_row by apply ascending_sort_values.
  fold (sort_values (filter (other (timestamp x)) (drop_duplicates df))).
  by rewrite IH, filter_sort_values.
Qed.

Lemma filter_other_all k df :
  Forall (other k) df → filter (other k) df = df.
Proof.
  induction 1 as [|x df Hx Hdf IH]; [done|].
  by rewrite filter_cons, decide_True, IH.
Qed.

Lemma drop_duplicates_strictly_ascending df :
  strictly_ascending df → drop_duplicates df = df.
Proof.
  induction df as [|x df IH]; [done|].
  intros [Hx Hdf]%strictly_ascending_cons. simpl. rewrite IH by done.
  rewrite filter_other_all; [done|].
  eapply Forall_impl; [exact Hx|]. simpl; intros; lia.
Qed.

Lemma drop_duplicates_idemp df :
  drop_duplicates (drop_duplicates df) = drop_duplicates df.
Proof.
  induction df as [|x df IH]; [done|]. simpl.
  by rewrite <- filter_drop_duplicates, IH, filter_other_idemp.
Qed.

Lemma Forall_other_drop_duplicates df :
  StronglySorted (fun x y => timestamp y ≠ timestamp x) (drop_duplicates df).
Proof.
  induction df as [|x df IH]; simpl; [constructor|].
  apply StronglySorted_cons. split.
  - apply Forall_forall. by intros y [Hy _]%list_elem_of_filter.
  - clear -IH. revert IH. generalize (drop_duplicates df). intros l.
    induction l as [|y l IHl]; [done|]. intros [Hy Hl]%StronglySorted_cons.
    rewrite filter_cons. case_decide; [|auto].
    apply StronglySorted_cons. split; [|auto]. by apply Forall_filter_keep.
Qed.

(** An ascending frame without two rows of one timestamp is strictly
    ascending. *)
Lemma ascending_distinct df :
  ascending df →
  StronglySorted (fun x y => timestamp y ≠ timestamp x) df →
  strictly_ascending df.
Proof.
  induction df as [|x df IH]; [constructor|].
  intros [Hx Hdf]%ascending_cons [Hx' Hdf']%StronglySorted_cons.
  apply strictly_ascending_cons. split; [|auto].
  rewrite Forall_forall in *. intros y Hy.
  specialize (Hx y Hy). specialize (Hx' y Hy). simpl in *. lia.
Qed.

Lemma strictly_ascending_merge_frames (all_data : list (DataFrame A)) :
  strictly_ascending (merge_frames all_data).
Proof.
  unfold merge_frames. rewrite <- drop_duplicates_sort_values.
  apply ascending_distinct.
  - apply ascending_drop_duplicates, ascending_sort_values.
  - apply Forall_other_drop_duplicates.
Qed.

Lemma merge_frames_strictly_ascending df :
  strictly_ascending df → merge_frames [df] = df.
Proof.
  intros Hdf. unfold merge_frames, pd_concat. simpl. rewrite app_nil_r.
  rewrite drop_duplicates_strictly_ascending by done.
  by apply sort_values_ascending, strictly_ascending_ascending.
Qed.

Local Abbreviation at_time k := (fun x : Row A => timestamp x = k).

Lemma filter_at_other k k' df :
  filter (at_time k) (filter (other k') df) =
  if decide (k = k') then [] else filter (at_time k) df.
Proof.
  induction df as [|x df IH]; [by destruct (decide (k = k'))|].
  rewrite (filter_cons (other k')), (filter_cons (at_time k)).
  destruct (decide (timestamp x ≠ k')) as [Hx|Hx].
  - rewrite filter_cons, IH.
    destruct (decide (timestamp x = k)), (decide (k = k')); subst; done.
  - rewrite IH.
    destruct (decide (timestamp x = k)), (decide (k = k')); subst; done.
Qed.

(** Of the rows of one timestamp [drop_duplicates] keeps the first. *)
Lemma drop_duplicates_keeps_first k df :
  filter (at_time k) (drop_duplicates df) = take 1 (filter (at_time k) df).
Proof.
  induction df as [|x df IH]; [done|]. cbn [drop_duplicates].
  rewrite !(filter_cons _ x), filter_at_other.
  destruct (decide (timestamp x = k)) as [Hx|Hx].
  - by rewrite decide_True.
  - by rewrite decide_False, IH.
Qed.

End MergeFacts.

Section MergeRows.

Context {A : Type}.
Implicit Types (r x : Row A) (df : DataFrame A) (k : instant).

Lemma insert_row_Permutation r df : insert_row r df ≡ₚ r :: df.
Proof.
  induction df as [|x df IH]; [done|]. cbn [insert_row].
  destruct (timestamp r <=? timestamp x); [done|].
  rewrite IH. apply Permutation_swap.
Qed.

(** Sorting moves rows, it neither adds nor removes one. *)
Lemma sort_values_Permutation df : sort_values df ≡ₚ df.
Proof.
  induction df as [|x df IH]; [done|]. cbn [sort_values foldr].
  fold (sort_values df). by rewrite insert_row_Permutation, IH.
Qed.

Lemma short_Permutation (l l' : list (Row A)) :
  l ≡ₚ l' → (length l' <= 1)%nat → l = l'.
Proof.
  intros Hp Hlen. destruct l' as [|x [|y l']]; simpl in Hlen; [| |lia].
  - by apply Permutation_nil_r in Hp.
  - by apply Permutation_singleton_r in Hp.
Qed.

(** For every timestamp the merged frame holds the row that was fetched
    first with it, and no other. *)
Lemma merge_frames_first_fetched (all_data : list (DataFrame A)) k :
  filter (fun x => timestamp x = k) (merge_frames all_data) =
  take 1 (filter (fun x => timestamp x = k) (pd_concat all_data)).
Proof.
  unfold merge_frames. rewrite <- drop_duplicates_keeps_first.
  apply short_Permutation.
  - by rewrite sort_values_Permutation.
  - rewrite drop_duplicates_keeps_first, length_take. lia.
Qed.

Lemma drop_duplicates_subset df x : x ∈ drop_duplicates df → x ∈ df.
Proof.
  induction df as [|y df IH]; [done|]. cbn [drop_duplicates].
  rewrite !elem_of_cons, list_elem_of_filter. intros [->|[_ Hx]]; auto.
Qed.

Lemma merge_frames_subset (all_data : list (DataFrame A)) x :
  x ∈ merge_frames all_data → x ∈ pd_concat all_data.
Proof.
  unfold merge_frames. rewrite sort_values_Permutation.
  apply drop_duplicates_subset.
Qed.

Lemma merge_frames_timestamps (all_data : list (DataFrame A)) k :
  k ∈ timestamp <$> merge_frames all_data ↔ k ∈ timestamp <$> pd_concat all_data.
Proof.
  assert (∀ l : list (Row A),
            k ∈ timestamp <$> l ↔ filter (fun x => timestamp x = k) l ≠ []) as Hfilter.
  { intros l. rewrite list_elem_of_fmap. split.
    - intros (x & -> & Hx) Hnil.
      eapply (filter_nil_not_elem_of _ _ x); [exact Hnil|done|done].
    - intros Hne. destruct (filter _ l) as [|x f] eqn:E; [done|].
      assert (x ∈ filter (fun x => timestamp x = k) l) as Hx by (rewrite E; left).
      apply list_elem_of_filter in Hx as [Hk Hx]. by exists x. }
  rewrite !Hfilter, merge_frames_first_fetched.
  by destruct (filter _ (pd_concat all_data)).
Qed.

Lemma merge_frames_nonempty (all_data : list (DataFrame A)) :
  pd_concat all_data ≠ [] → merge_frames all_data ≠ [].
Proof.
  intros Hne Hnil. destruct (pd_concat all_data) as [|x c] eqn:E; [done|].
  assert (timestamp x ∈ timestamp <$> merge_frames all_data) as Hx.
  { apply merge_frames_timestamps. rewrite E. left. }
  rewrite Hnil in Hx. by apply elem_of_nil in Hx.
Qed.

End MergeRows.

Section SortFacts.

Context {A : Type}.
Implicit Types (x : Row A) (df : DataFrame A).




End SortFacts.


(** C7 (idempotent merge).  The final step (concatenate, drop the rows whose
    timestamp was seen before, sort by timestamp), applied to its own output
    as the only page, gives that output again, for every list of pages. *)
Theorem merge_of_merged_is_merged {A : Type} (all_data : list (DataFrame A)) :
  merge_frames [merge_frames all_data] = merge_frames all_data ∧
  finish [merge_frames all_data] = Some (merge_frames all_data).
Proof.
  assert (merge_frames [merge_frames all_data] = merge_frames all_data) as H.
  { apply merge_frames_strictly_ascending, strictly_ascending_merge_frames. }
  split; [done|]. unfold finish. by rewrite H.
Qed.




Example merge_example :
  merge_frames
    [[mkRow 3 "a"; mkRow 1 "b"]; [mkRow 3 "c"; mkRow 2 "d"; mkRow 1 "e"]]
  = [mkRow 1 "b"; mkRow 2 "d"; mkRow 3 "a"].
Proof. reflexivity. Qed.

Lemma period_step_positive period : 0 < period_step period.
Proof.
  unfold period_step, period_map.
  destruct (list_to_map _ !! period) as [d|] eqn:E; simpl; [|done].
  apply elem_of_list_to_map_2 in E.
  repeat (apply elem_of_cons in E as [E|E]; [by inversion E|]).
  by apply elem_of_nil in E.
Qed.

Lemma period_step_unknown period :
  period ∉ table_periods → period_map !! period = None.
Proof.
  intros H. apply not_elem_of_list_to_map_1. exact H.
Qed.

Section EngineFacts.

Context {A W : Type}.
Variable time_delta : timedelta.
Variable end_date : instant.
Variable fetch : window_fetcher A W.

Implicit Types (st : BatchState A W) (df : DataFrame A).

Local Abbreviation step := (batch_step time_delta end_date fetch).
Local Abbreviation loop := (batched_loop time_delta end_date fetch).

Ltac step_cases :=
  unfold batch_step; repeat case_match; simplify_eq; cbn.


(** Every pass makes one call. *)
Lemma step_batch_num st :
  batch_num (state_of (step st)) = S (batch_num st).
Proof. step_cases; done. Qed.

Lemma loop_stop fuel st :
  end_date <= current_start st → loop fuel st = Some (Finished st).
Proof.
  intros H. destruct fuel; simpl; by replace (current_start st <? end_date) with false by lia.
Qed.

Lemma loop_pass fuel st :
  current_start st < end_date →
  loop (S fuel) st =
  match step st with
  | Continue st' => loop fuel st'
  | Break st' => Some (Finished st')
  | Abort e st' => Some (Failed e st')
  end.
Proof.
  intros H. simpl. by replace (current_start st <? end_date) with true by lia.
Qed.

(** More passes allowed, same run. *)
Lemma loop_more_fuel fuel fuel' st r :
  loop fuel st = Some r → (fuel <= fuel')%nat → loop fuel' st = Some r.
Proof.
  revert fuel' st. induction fuel as [|fuel IH]; intros fuel' st Hr Hle.
  - simpl in Hr. destruct (current_start st <? end_date) eqn:E; [done|].
    simplify_eq. apply loop_stop. lia.
  - destruct fuel' as [|fuel']; [lia|].
    destruct (Z.lt_ge_cases (current_start st) end_date) as [Hrun|Hrun].
    + rewrite loop_pass in * by done.
      destruct (step st); [|done..]. apply IH; [done|lia].
    + rewrite loop_stop in * by lia. done.
Qed.

Lemma loop_deterministic fuel fuel' st r r' :
  loop fuel st = Some r → loop fuel' st = Some r' → r = r'.
Proof.
  intros H H'.
  apply loop_more_fuel with (fuel' := (fuel `max` fuel')%nat) in H; [|lia].
  apply loop_more_fuel with (fuel' := (fuel `max` fuel')%nat) in H'; [|lia].
  congruence.
Qed.

(** The pass that takes a page in. *)
Lemma step_accept st df w' t :
  fetch (current_start st) (window_end time_delta end_date st) (world st) = (Returned (Some df), w') →
  iloc_last df = Some t →
  stalled (last_timestamp st) t = false →
  let st' :=
    mkBatch (all_data st ++ [df]) (t + milliseconds 1) (Some t)
      (S (batch_num st)) 0 w'
      (requested st ++ [(current_start st, window_end time_delta end_date st)]) in
  step st = if end_date <=? t then Break st' else Continue st'.
Proof.
  unfold batch_step, window_end. intros -> -> ->. done.
Qed.

(** The pass that meets a page not newer than the one before. *)
Lemma step_stall st df w' t :
  fetch (current_start st) (window_end time_delta end_date st) (world st) = (Returned (Some df), w') →
  iloc_last df = Some t →
  stalled (last_timestamp st) t = true →
  step st =
  Break (mkBatch (all_data st) (current_start st) (last_timestamp st)
           (S (batch_num st)) (consecutive_failures st) w'
           (requested st ++ [(current_start st, window_end time_delta end_date st)])).
Proof.
  unfold batch_step, window_end. intros -> -> ->. done.
Qed.

(** The pass whose call brings nothing. *)
Lemma step_failure st :
  no_data (fetch (current_start st) (window_end time_delta end_date st) (world st)).1 →
  let w' := (fetch (current_start st) (window_end time_delta end_date st) (world st)).2 in
  let log' := requested st ++ [(current_start st, window_end time_delta end_date st)] in
  step st =
  if (max_consecutive_failures <=? S (consecutive_failures st))%nat then
    Break (mkBatch (all_data st) (current_start st) (last_timestamp st)
             (S (batch_num st)) (S (consecutive_failures st)) w' log')
  else
    Continue (mkBatch (all_data st) (window_end time_delta end_date st + milliseconds 1)
                (last_timestamp st) (S (batch_num st))
                (S (consecutive_failures st)) w' log').
Proof.
  unfold batch_step, window_end, no_data.
  destruct (fetch _ _ _) as [res w']. simpl. by intros [->| ->].
Qed.

End EngineFacts.

(** C1 (stall termination).  Let the pass that starts in [st] take in a page
    whose last timestamp is [E], and let the adapter answer every window that
    starts after [E] with a page whose last and largest timestamp is [E].
    Then the loop ends after that call and at most one more: the next page is
    not newer than [E] and the stall test breaks out.  The page is the last
    one taken in. *)
Theorem stall_terminates_within_one_more_call {A W : Type}
    (time_delta : timedelta) (end_date E : instant) (fetch : window_fetcher A W)
    (st : BatchState A W) (df : DataFrame A) (w' : W) (fuel : nat) :
  (∀ a b w, E < a →
     ∃ page w1, fetch a b w = (Returned (Some page), w1) ∧
                iloc_last page = Some E ∧ max_timestamp page = Some E) →
  current_start st < end_date →
  fetch (current_start st) (window_end time_delta end_date st) (world st)
    = (Returned (Some df), w') →
  iloc_last df = Some E →
  stalled (last_timestamp st) E = false →
  ∃ st',
    batched_loop time_delta end_date fetch (2 + fuel) st = Some (Finished st') ∧
    (batch_num st' <= batch_num st + 2)%nat ∧
    all_data st' = all_data st ++ [df] ∧
    last_timestamp st' = Some E.
Proof.
  intros Hecho Hrun Hfetch Hlast Hfresh.
  change (2 + fuel)%nat with (S (S fuel)).
  rewrite loop_pass by done.
  rewrite (step_accept _ _ _ _ _ _ _ Hfetch Hlast Hfresh).
  destruct (end_date <=? E) eqn:Hend.
  - eexists. split; [done|]. simpl. split; [lia|done].
  - set (st1 := mkBatch _ _ _ _ _ _ _).
    destruct (Z.lt_ge_cases (current_start st1) end_date) as [Hrun1|Hrun1].
    + destruct (Hecho (current_start st1) (window_end time_delta end_date st1)
                  (world st1)) as (page & w1 & Hpage & Hpl & _).
      { subst st1. simpl. unfold milliseconds. lia. }
      rewrite loop_pass by done.
      rewrite (step_stall _ _ _ _ _ _ _ Hpage Hpl).
      * eexists. split; [done|]. simpl. split; [lia|done].
      * subst st1. simpl. lia.
    + rewrite loop_stop by done.
      eexists. split; [done|]. subst st1. simpl. split; [lia|done].
Qed.

Lemma stall_terminates_within_one_more_call_witness :
  ∃ st',
    batched_loop (hours 500) (days 1) (Stubs.fixed_page [Stubs.row 5000]) (2 + 0)
      (Stubs.fresh 0) = Some (Finished st') ∧
    (batch_num st' <= batch_num (Stubs.fresh 0) + 2)%nat ∧
    all_data st' = all_data (Stubs.fresh 0) ++ [[Stubs.row 5000]] ∧
    last_timestamp st' = Some 5000.
Proof.
  apply (stall_terminates_within_one_more_call (hours 500) (days 1) 5000
           (Stubs.fixed_page [Stubs.row 5000]) (Stubs.fresh 0)
           [Stubs.row 5000] tt 0).
  - intros a b w _. exists [Stubs.row 5000], w. done.
  - reflexivity.
  - reflexivity.
  - reflexivity.
  - reflexivity.
Defined.

Section AlwaysFailing.

Context {A W : Type}.
Variable time_delta : timedelta.
Variable end_date : instant.
Variable fetch : window_fetcher A W.
Hypothesis fetch_fails : ∀ a b w, no_data (fetch a b w).1.

Implicit Types (st : BatchState A W).

(** With an adapter that never brings anything the loop is over once the
    failure count reaches three, and nothing is taken in. *)
Lemma failing_loop n st :
  (consecutive_failures st + S n = 3)%nat →
  ∃ st',
    batched_loop time_delta end_date fetch (S n) st = Some (Finished st') ∧
    (batch_num st' <= batch_num st + S n)%nat ∧
    all_data st' = all_data st.
Proof.
  revert st. induction n as [|n IH]; intros st Hn.
  all: destruct (Z.lt_ge_cases (current_start st) end_date) as [Hrun|Hrun];
    [|rewrite loop_stop by done; eexists; split; [done|]; split; [lia|done]].
  all: rewrite loop_pass, step_failure by done.
  - destruct (Nat.leb_spec max_consecutive_failures (S (consecutive_failures st)))
      as [Hmax|Hmax]; unfold max_consecutive_failures in Hmax; [|lia].
    eexists; split; [done|]. simpl. split; [lia|done].
  - destruct (Nat.leb_spec max_consecutive_failures (S (consecutive_failures st)))
      as [Hmax|Hmax]; unfold max_consecutive_failures in Hmax; [lia|].
    edestruct IH as (st' & Hloop & Hnum & Hdata); [|rewrite Hloop].
    { simpl. lia. }
    eexists; split; [done|]. simpl in *. split; [lia|done].
Qed.

Lemma loop_failure fuel st :
  current_start st < end_date →
  (consecutive_failures st < 2)%nat →
  batched_loop time_delta end_date fetch (S fuel) st =
  batched_loop time_delta end_date fetch fuel (after_failure time_delta end_date fetch st).
Proof.
  intros Hrun Hcf. rewrite loop_pass, step_failure by done.
  destruct (Nat.leb_spec max_consecutive_failures (S (consecutive_failures st)))
    as [Hmax|Hmax]; unfold max_consecutive_failures in Hmax; [lia|done].
Qed.

Lemma loop_last_failure fuel st :
  current_start st < end_date →
  (2 <= consecutive_failures st)%nat →
  ∃ st',
    batched_loop time_delta end_date fetch (S fuel) st = Some (Finished st') ∧
    batch_num st' = S (batch_num st).
Proof.
  intros Hrun Hcf. rewrite loop_pass, step_failure by done.
  destruct (Nat.leb_spec max_consecutive_failures (S (consecutive_failures st)))
    as [Hmax|Hmax]; unfold max_consecutive_failures in Hmax; [|lia].
  eexists; split; done.
Qed.

(** The three calls are made when, and only when, the range holds two
    failed windows and the start of a third. *)
Lemma failing_loop_calls start_date w :
  0 <= time_delta →
  start_date < end_date →
  ∃ st',
    batched_loop time_delta end_date fetch 3 (init_state start_date w)
      = Some (Finished st') ∧
    batch_num st' =
      if start_date + 2 * (time_delta + milliseconds 1) <? end_date then 3%nat
      else if start_date + (time_delta + milliseconds 1) <? end_date then 2%nat
      else 1%nat.
Proof.
  intros Hd Hrun. unfold milliseconds.
  rewrite loop_failure by (simpl; lia).
  set (st1 := after_failure time_delta end_date fetch (init_state start_date w)).
  assert (current_start st1 = Z.min (start_date + time_delta) end_date + 1000)
    as Hc1 by done.
  destruct (Z.ltb_spec (start_date + (time_delta + 1 * 1000)) end_date) as [H1|H1].
  - rewrite loop_failure by (first [rewrite Hc1; lia | simpl; lia]).
    set (st2 := after_failure time_delta end_date fetch st1).
    assert (current_start st2 =
              Z.min (current_start st1 + time_delta) end_date + 1000)
      as Hc2 by done.
    destruct (Z.ltb_spec (start_date + 2 * (time_delta + 1 * 1000)) end_date)
      as [H2|H2].
    + destruct (loop_last_failure 0 st2) as (st' & -> & Hnum); [lia|simpl; lia|].
      eexists; split; done.
    + rewrite loop_stop by lia. eexists; split; done.
  - replace (start_date + 2 * (time_delta + 1 * 1000) <? end_date) with false by lia.
    rewrite loop_stop by lia. eexists; split; done.
Qed.

End AlwaysFailing.

(** C2 (bounded failures), as the code has it.  When every call of the adapter
    returns [None] or a frame without rows, [_get_batched_data] is over after
    at most three calls and returns [None]; it makes exactly three calls when
    the range is long enough for three windows, that is when
    [start_date + 2 * (step + 1 ms) < end_date], and one or two calls when it
    is shorter. *)
Theorem all_failures_stop_within_three_calls {A W : Type}
    (fetch_func : adapter A W) (period : string)
    (start_date end_date : instant) (w : W) :
  (∀ per a b lim w0, no_data (fetch_func per a b lim w0).1) →
  start_date < end_date →
  ∃ st',
    _get_batched_data_loop 3 fetch_func period start_date end_date w
      = Some (Finished st') ∧
    _get_batched_data 3 fetch_func period start_date end_date w
      = Some (Returned None, world st') ∧
    (1 <= batch_num st' <= 3)%nat ∧
    (batch_num st' = 3%nat ↔
     start_date + 2 * (period_step period + milliseconds 1) < end_date).
Proof.
  intros Hfail Hrun. unfold _get_batched_data_loop, _get_batched_data, batched_fetch.
  set (fetch := fun a b => fetch_func period a b 500).
  assert (∀ a b w0, no_data (fetch a b w0).1) as Hfail' by (intros; apply Hfail).
  destruct (failing_loop_calls (period_step period) end_date fetch Hfail'
              start_date w) as (st' & Hloop & Hnum); [|done|].
  { pose proof (period_step_positive period). lia. }
  destruct (failing_loop (period_step period) end_date fetch Hfail' 2
              (init_state start_date w)) as (st2 & Hloop2 & _ & Hdata); [done|].
  rewrite Hloop in Hloop2. simplify_eq.
  exists st2. rewrite Hloop. simpl. rewrite Hdata. simpl.
  split; [done|]. split; [done|]. rewrite Hnum.
  repeat case_match; split; try lia.
Qed.

Lemma all_failures_stop_within_three_calls_witness :
  ∃ st',
    _get_batched_data_loop 3 Stubs.silent
      "5m" 0 (days 30) tt = Some (Finished st') ∧
    _get_batched_data 3 Stubs.silent
      "5m" 0 (days 30) tt = Some (Returned None, world st') ∧
    (1 <= batch_num st' <= 3)%nat ∧
    (batch_num st' = 3%nat ↔ 0 + 2 * (period_step "5m" + milliseconds 1) < days 30).
Proof.
  apply (all_failures_stop_within_three_calls Stubs.silent "5m" 0 (days 30) tt).
  - intros. by left.
  - reflexivity.
Defined.

(** C2, the claim as it stands, fails on a range shorter than a step: one day
    at period [1d] (a step of 500 days) is one window, and after its failure
    the cursor is past the end: one call, not three. *)
Lemma all_failures_one_call_on_a_short_range :
  ∃ st',
    _get_batched_data_loop 3 Stubs.silent
      "1d" (datetime 2024 1 1) (datetime 2024 1 2) tt = Some (Finished st') ∧
    batch_num st' = 1%nat ∧ batch_num st' ≠ 3%nat.
Proof. eexists. split; [vm_compute; reflexivity|]. split; [reflexivity|discriminate]. Qed.




Section Newest.

Context {A : Type}.
Implicit Types (r x : Row A) (df : DataFrame A).

Lemma iloc_last_cons x df :
  iloc_last (x :: df) = Some (default (timestamp x) (iloc_last df)).
Proof.
  unfold iloc_last. revert x. induction df as [|y df IH]; intros x; [done|].
  rewrite last_cons_cons. rewrite IH. simpl.
  destruct (last df); simpl; [done|]. by destruct df.
Qed.

(** In an ascending frame the last row carries the largest timestamp. *)
Lemma max_timestamp_ascending df :
  ascending df → max_timestamp df = iloc_last df.
Proof.
  destruct df as [|b df]; [done|]. rewrite iloc_last_cons.
  intros [Hb Hdf]%StronglySorted_cons. simpl. f_equal.
  induction df as [|y df IH]; [done|].
  apply Forall_cons_1 in Hb as [Hy Hb].
  apply StronglySorted_cons in Hdf as [Hy' Hdf].
  simpl. rewrite IH by done. rewrite iloc_last_cons. simpl.
  destruct df as [|z df]; simpl; [lia|].
  rewrite iloc_last_cons. simpl.
  assert (timestamp y <= default (timestamp z) (iloc_last df)); [|lia].
  apply Forall_cons_1 in Hy' as [Hz Hy'].
  destruct (iloc_last df) as [t|] eqn:E; simpl; [|done].
  unfold iloc_last in E. destruct (last df) as [l|] eqn:El; [|done].
  simplify_eq/=. apply last_Some_elem_of in El.
  rewrite Forall_forall in Hy'. by apply Hy'.
Qed.

End Newest.

(** C9 (the newest timestamp), as the code has it.  For a page with at least
    one row the engine compares with [last_timestamp], stores, and advances
    the cursor to 1 ms after, the timestamp of the page's last row
    ([df['timestamp'].iloc[-1]]); that is the largest timestamp of the page
    whenever the page is in ascending order. *)
Theorem newest_is_the_last_row {A W : Type}
    (time_delta : timedelta) (end_date : instant) (fetch : window_fetcher A W)
    (st : BatchState A W) (df : DataFrame A) (w' : W) :
  fetch (current_start st) (window_end time_delta end_date st) (world st)
    = (Returned (Some df), w') →
  df ≠ [] →
  ∃ newest,
    iloc_last df = Some newest ∧
    (ascending df → max_timestamp df = Some newest) ∧
    let st' := state_of (batch_step time_delta end_date fetch st) in
    if stalled (last_timestamp st) newest then
      last_timestamp st' = last_timestamp st ∧ current_start st' = current_start st
    else
      last_timestamp st' = Some newest ∧
      current_start st' = newest + milliseconds 1.
Proof.
  intros Hfetch Hdf. destruct df as [|x df]; [done|].
  eexists. split; [apply iloc_last_cons|]. split.
  - intros Hasc. by rewrite max_timestamp_ascending, iloc_last_cons.
  - pose proof (iloc_last_cons x df) as Hlast. simpl.
    destruct (stalled _ _) eqn:Hstall.
    + by rewrite (step_stall _ _ _ _ _ _ _ Hfetch Hlast Hstall).
    + rewrite (step_accept _ _ _ _ _ _ _ Hfetch Hlast Hstall).
      by destruct (end_date <=? _).
Qed.

Lemma newest_is_the_last_row_witness :
  ∃ newest,
    iloc_last [Stubs.row 1000; Stubs.row 2000] = Some newest ∧
    (ascending [Stubs.row 1000; Stubs.row 2000] →
     max_timestamp [Stubs.row 1000; Stubs.row 2000] = Some newest) ∧
    let st' :=
      state_of
        (batch_step (hours 500) (days 1)
           (Stubs.fixed_page [Stubs.row 1000; Stubs.row 2000]) (Stubs.fresh 0)) in
    if stalled (last_timestamp (Stubs.fresh 0)) newest then
      last_timestamp st' = last_timestamp (Stubs.fresh 0) ∧
      current_start st' = current_start (Stubs.fresh 0)
    else
      last_timestamp st' = Some newest ∧
      current_start st' = newest + milliseconds 1.
Proof.
  apply (newest_is_the_last_row (hours 500) (days 1)
           (Stubs.fixed_page [Stubs.row 1000; Stubs.row 2000]) (Stubs.fresh 0)
           [Stubs.row 1000; Stubs.row 2000] tt).
  - reflexivity.
  - discriminate.
Defined.

(** C9, the claim as it stands, fails on a page that is not in ascending
    order: of the rows at 5 ms and 3 ms the engine takes 3 ms, the last one,
    where the largest is 5 ms. *)
Lemma newest_is_not_the_maximum :
  ∃ st',
    batch_step (hours 500) (days 1)
      (Stubs.fixed_page [Stubs.row (milliseconds 5); Stubs.row (milliseconds 3)])
      (Stubs.fresh 0) = Continue st' ∧
    last_timestamp st' = Some (milliseconds 3) ∧
    current_start st' = milliseconds 3 + milliseconds 1 ∧
    max_timestamp [Stubs.row (milliseconds 5); Stubs.row (milliseconds 3)]
      = Some (milliseconds 5) ∧
    last_timestamp st' ≠
    max_timestamp [Stubs.row (milliseconds 5); Stubs.row (milliseconds 3)].
Proof.
  eexists. split; [vm_compute; reflexivity|].
  repeat split; try reflexivity. discriminate.
Qed.


Section Termination.

Context {A W : Type}.
Variable time_delta : timedelta.
Variable end_date : instant.
Variable fetch : window_fetcher A W.

Implicit Types (st : BatchState A W).

(** A pass that goes on either counted a failure or took in a page that is
    newer than the one before and older than the end of the range. *)
Lemma step_continue st st1 :
  batch_step time_delta end_date fetch st = Continue st1 →
  (last_timestamp st1 = last_timestamp st ∧
   consecutive_failures st1 = S (consecutive_failures st) ∧
   (consecutive_failures st1 <= 2)%nat) ∨
  (∃ t, last_timestamp st1 = Some t ∧ consecutive_failures st1 = 0%nat ∧
        t < end_date ∧ ∀ l, last_timestamp st = Some l → l < t).
Proof.
  unfold batch_step. repeat case_match; intros; simplify_eq; simpl.
  all: first
    [ left; split_and!; [done..|];
      match goal with
      | H : (max_consecutive_failures <=? _)%nat = false |- _ =>
          apply Nat.leb_gt in H; unfold max_consecutive_failures in H; lia
      end
    | right; eexists; split_and!; [done|done|lia|];
      intros prev Hprev; unfold stalled in *; rewrite Hprev in *; lia ].
Qed.

Lemma loop_terminates_after_a_page n st l :
  last_timestamp st = Some l → l < end_date →
  (consecutive_failures st <= 2)%nat →
  (remaining end_date st < n)%nat →
  is_Some (batched_loop time_delta end_date fetch n st).
Proof.
  revert st l. induction n as [|n IH]; intros st l Hl Hend Hcf Hn; [lia|].
  destruct (Z.lt_ge_cases (current_start st) end_date) as [Hrun|Hrun];
    [|by rewrite loop_stop].
  rewrite loop_pass by done.
  destruct (batch_step time_delta end_date fetch st) as [st1|st1|e st1] eqn:E;
    [|done..].
  apply step_continue in E as [(Hl1 & Hcf1 & Hle)|(t & Hl1 & Hcf1 & Ht & Hnew)].
  - apply (IH st1 l); [congruence|done|done|].
    unfold remaining in *. rewrite Hl1, Hl in *. lia.
  - apply (IH st1 t); [done|done|lia|].
    specialize (Hnew l Hl). unfold remaining in *. rewrite Hl1, Hl in *. lia.
Qed.

Lemma loop_terminates_before_a_page k st :
  last_timestamp st = None →
  (consecutive_failures st + k = 2)%nat →
  ∃ fuel, is_Some (batched_loop time_delta end_date fetch fuel st).
Proof.
  revert st. induction k as [|k IH]; intros st Hl Hcf.
  all: destruct (Z.lt_ge_cases (current_start st) end_date) as [Hrun|Hrun];
    [|exists 0%nat; by rewrite loop_stop].
  all: destruct (batch_step time_delta end_date fetch st) as [st1|st1|e st1] eqn:E;
    [|exists 1%nat; by rewrite loop_pass, E..].
  all: apply step_continue in E as HE;
    destruct HE as [(Hl1 & Hcf1 & Hle)|(t & Hl1 & Hcf1 & Ht & Hnew)].
  - lia.
  - exists (S (S (remaining end_date st1))). rewrite loop_pass, E by done.
    apply (loop_terminates_after_a_page _ st1 t); [done|done|lia|lia].
  - destruct (IH st1) as [fuel Hfuel]; [congruence|lia|].
    exists (S fuel). by rewrite loop_pass, E.
  - exists (S (S (remaining end_date st1))). rewrite loop_pass, E by done.
    apply (loop_terminates_after_a_page _ st1 t); [done|done|lia|lia].
Qed.

(** The loop ends, whatever the adapter does. *)
Lemma loop_terminates start_date w :
  ∃ fuel, is_Some (batched_loop time_delta end_date fetch fuel (init_state start_date w)).
Proof. by apply (loop_terminates_before_a_page 2). Qed.

Lemma batched_fetch_terminates start_date w :
  ∃ fuel, is_Some (batched_fetch time_delta end_date fetch fuel start_date w).
Proof.
  destruct (loop_terminates start_date w) as [fuel [r Hr]].
  exists fuel. unfold batched_fetch. rewrite Hr. by eexists.
Qed.

End Termination.

Section Windows.

Context {A W : Type}.
Variable time_delta : timedelta.
Variable end_date : instant.
Variable fetch : window_fetcher A W.

Implicit Types (st : BatchState A W).

(** Every pass asks for the window from the cursor on, once. *)
Lemma step_calls st :
  let pass := state_of (batch_step time_delta end_date fetch st) in
  requested pass = requested st ++ [(current_start st, window_end time_delta end_date st)] ∧
  world pass =
    (fetch (current_start st) (window_end time_delta end_date st) (world st)).2 ∧
  batch_num pass = S (batch_num st).
Proof.
  unfold batch_step, window_end.
  destruct (fetch _ _ _) as [res w']. simpl. by repeat case_match.
Qed.

(** The windows of a run: each is one step wide or ends with the range, the
    first one starts at the cursor, and the adapter was called on them in
    order, the network state going from call to call. *)
Lemma loop_windows fuel st r :
  batched_loop time_delta end_date fetch fuel st = Some r →
  ∃ windows,
    requested (final_state r) = requested st ++ windows ∧
    Forall (fun window => window.2 = Z.min (window.1 + time_delta) end_date) windows ∧
    world (final_state r) =
      foldl (fun w window => (fetch window.1 window.2 w).2) (world st) windows ∧
    batch_num (final_state r) = (batch_num st + length windows)%nat ∧
    (current_start st < end_date →
     head windows = Some (current_start st, Z.min (current_start st + time_delta) end_date)).
Proof.
  revert st. induction fuel as [|fuel IH]; intros st Hr.
  - simpl in Hr. destruct (current_start st <? end_date) eqn:E; [done|].
    simplify_eq. exists []. rewrite app_nil_r. simpl.
    split_and!; [done|done|done|lia|]. intros. apply Z.ltb_ge in E. lia.
  - destruct (Z.lt_ge_cases (current_start st) end_date) as [Hrun|Hrun].
    2:{ rewrite loop_stop in Hr by done. simplify_eq. exists [].
        rewrite app_nil_r. simpl. split_and!; [done|done|done|lia|lia]. }
    rewrite loop_pass in Hr by done.
    destruct (step_calls st) as (Hreq & Hworld & Hnum).
    assert (∃ windows,
              requested (final_state r)
              = requested (state_of (batch_step time_delta end_date fetch st))
                ++ windows ∧
              Forall (fun window => window.2 = Z.min (window.1 + time_delta) end_date)
                windows ∧
              world (final_state r) =
                foldl (fun w window => (fetch window.1 window.2 w).2)
                  (world (state_of (batch_step time_delta end_date fetch st)))
                  windows ∧
              batch_num (final_state r) =
                (batch_num (state_of (batch_step time_delta end_date fetch st))
                 + length windows)%nat)
      as (windows & Hw1 & Hw2 & Hw3 & Hw4).
    { destruct (batch_step time_delta end_date fetch st) as [st1|st1|e st1];
        cbn [state_of].
      - apply IH in Hr as (windows & ? & ? & ? & ? & _). by exists windows.
      - simplify_eq. exists []. rewrite app_nil_r. simpl. split_and!; [done..|lia].
      - simplify_eq. exists []. rewrite app_nil_r. simpl. split_and!; [done..|lia]. }
    exists ((current_start st, window_end time_delta end_date st) :: windows).
    split_and!.
    + by rewrite Hw1, Hreq, <- app_assoc.
    + by constructor.
    + by rewrite Hw3, Hworld.
    + rewrite Hw4, Hnum. simpl. lia.
    + done.
Qed.

(** An exception leaves the loop only when the adapter raised it. *)
Lemma loop_returns fuel st r :
  (∀ a b w e, (fetch a b w).1 ≠ Raised e) →
  batched_loop time_delta end_date fetch fuel st = Some r →
  ∃ st', r = Finished st'.
Proof.
  intros Hfetch. revert st. induction fuel as [|fuel IH]; intros st Hr.
  - simpl in Hr. destruct (current_start st <? end_date); [done|].
    simplify_eq. by eexists.
  - destruct (Z.lt_ge_cases (current_start st) end_date) as [Hrun|Hrun].
    2:{ rewrite loop_stop in Hr by done. simplify_eq. by eexists. }
    rewrite loop_pass in Hr by done.
    destruct (batch_step time_delta end_date fetch st) as [st1|st1|e st1] eqn:E.
    + by apply IH in Hr.
    + simplify_eq. by eexists.
    + exfalso. unfold batch_step in E.
      pose proof (Hfetch (current_start st)
                    (Z.min (current_start st + time_delta) end_date) (world st)) as Hno.
      destruct (fetch _ _ _) as [[[df|]|e'] w']; simpl in *.
      * by repeat case_match.
      * by repeat case_match.
      * by apply (Hno e').
Qed.

End Windows.

(** C10 (unknown periods).  For a period that is not one of the nine keys of
    the table the lookup does not fail: the step is the default of 500 hours.
    In every run of [_get_batched_data] with such a period the first window
    goes from [start_date] to 500 hours later (or to [end_date] if that
    comes first), every window is 500 hours wide or ends at [end_date], and
    the adapter is called on these windows, with that period and
    [limit=500]; the function hands back what that run gives; and when the
    adapter raises nothing, the function returns. *)
Theorem unknown_period_steps_by_500_hours (period : string) :
  period ∉ table_periods →
  period_step period = hours 500 ∧
  (∀ (A W : Type) (fuel : nat) (fetch_func : adapter A W)
     (start_date end_date : instant) (w : W) (r : loop_end A W),
     start_date < end_date →
     _get_batched_data_loop fuel fetch_func period start_date end_date w = Some r →
     head (requested (final_state r))
     = Some (start_date, Z.min (start_date + hours 500) end_date) ∧
     Forall (fun window => window.2 = Z.min (window.1 + hours 500) end_date)
       (requested (final_state r)) ∧
     world (final_state r) =
       foldl (fun w window => (fetch_func period window.1 window.2 500 w).2) w
         (requested (final_state r)) ∧
     calls r = length (requested (final_state r)) ∧
     _get_batched_data fuel fetch_func period start_date end_date w
     = Some (outcome r)) ∧
  (∀ (A W : Type) (fetch_func : adapter A W)
     (start_date end_date : instant) (w : W),
     (∀ per a b lim w0 e, (fetch_func per a b lim w0).1 ≠ Raised e) →
     ∃ fuel table w',
       _get_batched_data fuel fetch_func period start_date end_date w
       = Some (Returned table, w')).
Proof.
  intros Hnew. assert (period_step period = hours 500) as Hstep.
  { unfold period_step. by rewrite period_step_unknown. }
  split; [done|]. split.
  - intros A W fuel fetch_func start_date end_date w r Hrun Hloop.
    unfold _get_batched_data_loop in Hloop. rewrite Hstep in Hloop.
    pose proof Hloop as Hloop0.
    apply loop_windows in Hloop as (windows & Hreq & Hwide & Hworld & Hnum & Hhead).
    simpl in Hreq, Hworld, Hnum, Hhead. rewrite Hreq. unfold calls.
    split_and!; [by apply Hhead|done|done|done|].
    unfold _get_batched_data, batched_fetch. rewrite Hstep.
    by rewrite Hloop0.
  - intros A W fetch_func start_date end_date w Hfetch.
    destruct (loop_terminates (period_step period) end_date
                (fun a b => fetch_func period a b 500) start_date w)
      as [fuel [r Hr]].
    apply loop_returns in Hr as Hfin; [|by intros; apply Hfetch].
    destruct Hfin as [st' ->].
    exists fuel, (finish (all_data st')), (world st').
    unfold _get_batched_data, batched_fetch. by rewrite Hr.
Qed.

Lemma unknown_period_steps_by_500_hours_witness :
  period_step "3m" = hours 500 ∧
  (∀ (A W : Type) (fuel : nat) (fetch_func : adapter A W)
     (start_date end_date : instant) (w : W) (r : loop_end A W),
     start_date < end_date →
     _get_batched_data_loop fuel fetch_func "3m" start_date end_date w = Some r →
     head (requested (final_state r))
     = Some (start_date, Z.min (start_date + hours 500) end_date) ∧
     Forall (fun window => window.2 = Z.min (window.1 + hours 500) end_date)
       (requested (final_state r)) ∧
     world (final_state r) =
       foldl (fun w window => (fetch_func "3m" window.1 window.2 500 w).2) w
         (requested (final_state r)) ∧
     calls r = length (requested (final_state r)) ∧
     _get_batched_data fuel fetch_func "3m" start_date end_date w
     = Some (outcome r)) ∧
  (∀ (A W : Type) (fetch_func : adapter A W)
     (start_date end_date : instant) (w : W),
     (∀ per a b lim w0 e, (fetch_func per a b lim w0).1 ≠ Raised e) →
     ∃ fuel table w',
       _get_batched_data fuel fetch_func "3m" start_date end_date w
       = Some (Returned table, w')).
Proof.
  apply (unknown_period_steps_by_500_hours "3m").
  refine (bool_decide_unpack ("3m" ∉ table_periods) _). vm_compute. exact I.
Defined.

(** A period that the table does not have, against an adapter that never
    brings anything: three windows of 500 hours, one after the other. *)
Example unknown_period_windows :
  ∃ st',
    _get_batched_data_loop 3 Stubs.silent "3m" 0 (days 90) tt = Some (Finished st') ∧
    requested st' =
      [(0, hours 500);
       (hours 500 + milliseconds 1, hours 1000 + milliseconds 1);
       (hours 1000 + milliseconds 2, hours 1500 + milliseconds 2)].
Proof. eexists. split; [vm_compute; reflexivity|reflexivity]. Qed.

Section StartStub.

Import Stubs.

Variable time_delta : timedelta.
Variable end_date : instant.

Variable period : string.

Local Abbreviation fetch := (fun a b => at_window_start period a b 500).

Lemma milliseconds_between_stop c :
  end_date <= c → Z.to_nat (milliseconds_between c end_date) = 0%nat.
Proof.
  intros H. unfold milliseconds_between.
  assert ((end_date - c + 999) / 1000 <= 0); [|lia].
  apply Z.lt_succ_r, Z.div_lt_upper_bound; lia.
Qed.

Lemma milliseconds_between_pass c :
  c < end_date →
  Z.to_nat (milliseconds_between c end_date) =
  S (Z.to_nat (milliseconds_between (c + milliseconds 1) end_date)).
Proof.
  intros H. unfold milliseconds_between, milliseconds.
  replace (end_date - c + 999) with ((end_date - (c + 1 * 1000) + 999) + 1 * 1000) by lia.
  rewrite Z.div_add by lia.
  assert (0 <= (end_date - (c + 1 * 1000) + 999) / 1000); [|lia].
  apply Z.div_pos; lia.
Qed.

(** With the stub that answers at the start of the window the cursor moves
    by 1 ms a call: the loop takes in one row for every millisecond that
    is left of the range. *)
Lemma start_stub_loop n (st : BatchState unit unit) :
  Z.to_nat (milliseconds_between (current_start st) end_date) = n →
  (∀ t, last_timestamp st = Some t → t < current_start st) →
  ∃ st',
    batched_loop time_delta end_date fetch n st = Some (Finished st') ∧
    all_data st' =
      all_data st ++ ((fun t => [row t]) <$> ticks (current_start st) n) ∧
    batch_num st' = (batch_num st + n)%nat ∧
    world st' = world st.
Proof.
  revert st. induction n as [|n IH]; intros st Hn Hlast.
  - destruct (Z.lt_ge_cases (current_start st) end_date) as [Hrun|Hrun].
    { rewrite milliseconds_between_pass in Hn by done. done. }
    rewrite loop_stop by done. eexists. split; [done|].
    simpl. rewrite app_nil_r. split; [done|]. split; [lia|done].
  - destruct (Z.lt_ge_cases (current_start st) end_date) as [Hrun|Hrun].
    2:{ rewrite milliseconds_between_stop in Hn by done. done. }
    rewrite milliseconds_between_pass in Hn by done.
    rewrite loop_pass by done.
    erewrite step_accept; [|reflexivity|reflexivity|].
    2:{ unfold stalled. destruct (last_timestamp st) as [t|] eqn:E; [|done].
        specialize (Hlast t eq_refl). apply Z.leb_gt. simpl. lia. }
    cbn [timestamp].
    replace (end_date <=? current_start st) with false by lia.
    edestruct IH as (st' & Hloop & Hdata & Hnum & Hw); [| |rewrite Hloop].
    + simpl. lia.
    + simpl. intros t [= <-]. unfold milliseconds. lia.
    + eexists. split; [done|]. simpl in *.
      rewrite Hdata, <- app_assoc. split; [done|]. split; [lia|done].
Qed.

Lemma ticks_lookup t n i :
  (i < n)%nat → ticks t n !! i = Some (t + milliseconds (Z.of_nat i)).
Proof.
  revert t i. induction n as [|n IH]; intros t i Hi; [lia|].
  destruct i as [|i]; simpl.
  - f_equal. unfold milliseconds. lia.
  - rewrite IH by lia. f_equal. unfold milliseconds. lia.
Qed.

Lemma ticks_length t n : length (ticks t n) = n.
Proof. revert t. induction n as [|n IH]; intros t; simpl; [done|]. by rewrite IH. Qed.

Lemma ticks_rows_strictly_ascending t n :
  strictly_ascending (row <$> ticks t n).
Proof.
  revert t. induction n as [|n IH]; intros t; simpl; [constructor|].
  apply strictly_ascending_cons. split; [|apply IH].
  apply Forall_forall. intros x Hx.
  apply list_elem_of_fmap in Hx as (u & -> & Hu).
  apply list_elem_of_lookup in Hu as (i & Hi).
  pose proof (lookup_lt_Some _ _ _ Hi) as Hlt. rewrite ticks_length in Hlt.
  rewrite ticks_lookup in Hi by done. simplify_eq. simpl.
  unfold milliseconds. lia.
Qed.

Lemma concat_singletons {T} (l : list T) : concat ((fun t => [t]) <$> l) = l.
Proof. induction l as [|x l IH]; [done|]. simpl. f_equal. exact IH. Qed.

(** The run of the loop with that stub, from the start. *)
Lemma start_stub_run start_date :
  start_date < end_date →
  batched_fetch time_delta end_date fetch
    (Z.to_nat (milliseconds_between start_date end_date)) start_date tt =
  Some (Returned (Some (row <$> every_millisecond start_date end_date)), tt).
Proof.
  intros Hrun. unfold batched_fetch.
  destruct (start_stub_loop _ (init_state start_date tt) eq_refl)
    as (st' & Hloop & Hdata & Hnum & Hw); [done|].
  cbn [current_start init_state] in Hloop. rewrite Hloop.
  cbn [fmap option_fmap option_map outcome]. rewrite Hw.
  cbn [init_state world all_data current_start app] in *.
  fold (every_millisecond start_date end_date) in Hdata.
  do 3 f_equal. rewrite Hdata.
  assert (∀ l : list (DataFrame unit), l ≠ [] → finish l = Some (merge_frames l))
    as Hfinish by (by intros [|? ?]).
  rewrite Hfinish.
  2:{ unfold every_millisecond. rewrite milliseconds_between_pass by done. done. }
  f_equal. unfold merge_frames, pd_concat.
  replace (concat ((fun t0 => [row t0]) <$> every_millisecond start_date end_date))
    with (row <$> every_millisecond start_date end_date).
  2:{ rewrite <- (concat_singletons (row <$> _)), <- list_fmap_compose. done. }
  pose proof (ticks_rows_strictly_ascending start_date
                (Z.to_nat (milliseconds_between start_date end_date))) as Hasc.
  fold (every_millisecond start_date end_date) in Hasc.
  rewrite drop_duplicates_strictly_ascending by done.
  by apply sort_values_ascending, strictly_ascending_ascending.
Qed.

(** The same run with its number of calls. *)
Lemma start_stub_calls start_date :
  start_date < end_date →
  ∃ st',
    batched_loop time_delta end_date fetch
      (Z.to_nat (milliseconds_between start_date end_date))
      (init_state start_date tt) = Some (Finished st') ∧
    batch_num st' = Z.to_nat (milliseconds_between start_date end_date) ∧
    batched_fetch time_delta end_date fetch
      (Z.to_nat (milliseconds_between start_date end_date)) start_date tt =
    Some (Returned (Some (row <$> every_millisecond start_date end_date)), tt).
Proof.
  intros Hrun.
  destruct (start_stub_loop _ (init_state start_date tt) eq_refl)
    as (st' & Hloop & _ & Hnum & _); [done|].
  exists st'. split; [exact Hloop|]. split; [exact Hnum|].
  by apply start_stub_run.
Qed.

End StartStub.

Section Determinism.

Context {A W : Type}.

Lemma batched_fetch_deterministic (time_delta : timedelta) (end_date : instant)
    (fetch : window_fetcher A W) fuel fuel' start_date w r r' :
  batched_fetch time_delta end_date fetch fuel start_date w = Some r →
  batched_fetch time_delta end_date fetch fuel' start_date w = Some r' →
  r = r'.
Proof.
  unfold batched_fetch. intros H H'.
  destruct (batched_loop _ _ _ fuel _) as [e|] eqn:E; [|done].
  destruct (batched_loop _ _ _ fuel' _) as [e'|] eqn:E'; [|done].
  pose proof (loop_deterministic _ _ _ _ _ _ _ _ E E'). simplify_eq/=. done.
Qed.

End Determinism.

Lemma scenario_length :
  Stubs.milliseconds_between Stubs.scenario_start Stubs.scenario_end = 259200000.
Proof. vm_compute. reflexivity. Qed.

Lemma scenario_row (i : nat) :
  (i < 3)%nat →
  (Stubs.row <$> Stubs.every_millisecond Stubs.scenario_start Stubs.scenario_end) !! i
  = Some (Stubs.row (Stubs.scenario_start + milliseconds (Z.of_nat i))).
Proof.
  intros Hi. rewrite list_lookup_fmap. unfold Stubs.every_millisecond.
  rewrite ticks_lookup; [done|]. rewrite scenario_length. lia.
Qed.

Lemma scenario_calls_number : Z.of_nat Stubs.scenario_calls = 259200000.
Proof.
  unfold Stubs.scenario_calls. rewrite scenario_length. apply Z2Nat.id. lia.
Qed.

(** The run of the scenario: a call for every millisecond of the range. *)
Lemma scenario_run :
  ∃ fuel st',
    Z.of_nat fuel = 259200000 ∧
    batched_loop Stubs.scenario_step Stubs.scenario_end Stubs.scenario_fetch
      fuel (Stubs.fresh Stubs.scenario_start) = Some (Finished st') ∧
    batch_num st' = fuel ∧
    Stubs.scenario fuel =
    Some (Returned
            (Some (Stubs.row <$>
                   Stubs.every_millisecond Stubs.scenario_start Stubs.scenario_end)),
          tt).
Proof.
  destruct (start_stub_calls Stubs.scenario_step Stubs.scenario_end "1d"
              Stubs.scenario_start eq_refl) as (st' & Hloop & Hnum & Hrun).
  fold Stubs.scenario_calls in Hloop, Hnum, Hrun.
  pose proof scenario_calls_number as Hfuel.
  revert Hfuel Hloop Hnum Hrun. generalize Stubs.scenario_calls.
  intros fuel Hfuel Hloop Hnum Hrun.
  exists fuel, st'. split; [exact Hfuel|]. split; [exact Hloop|].
  split; [exact Hnum|]. exact Hrun.
Qed.

(** C3 (the scenario), as the code has it.  For the request
    [2024-01-01T00:00, 2024-01-04T00:00) at a step of one day, with the stub
    that returns one row at the start of the window it is asked for, the
    cursor moves to 1 ms after the row, not to the next day: the second
    window starts at 00:00:00.001 and its row is at 00:00:00.001.  The loop
    ends after 259 200 000 calls and returns one row for every millisecond
    of the three days, the first three at 00:00:00.000, .001 and .002 of
    2024-01-01. *)
Theorem scenario_returns_a_row_per_millisecond :
  ∃ fuel st' result,
    Z.of_nat fuel = 259200000 ∧
    batched_loop Stubs.scenario_step Stubs.scenario_end Stubs.scenario_fetch
      fuel (Stubs.fresh Stubs.scenario_start) = Some (Finished st') ∧
    batch_num st' = fuel ∧
    Stubs.scenario fuel = Some (Returned (Some result), tt) ∧
    result = Stubs.row <$> Stubs.every_millisecond Stubs.scenario_start Stubs.scenario_end ∧
    Z.of_nat (length result) = 259200000 ∧
    result !! 0%nat = Some (Stubs.row (datetime 2024 1 1)) ∧
    result !! 1%nat = Some (Stubs.row (datetime 2024 1 1 + milliseconds 1)) ∧
    result !! 2%nat = Some (Stubs.row (datetime 2024 1 1 + milliseconds 2)).
Proof.
  destruct scenario_run as (fuel & st' & Hfuel & Hloop & Hnum & Hrun).
  exists fuel, st', (Stubs.row <$>
               Stubs.every_millisecond Stubs.scenario_start Stubs.scenario_end).
  split; [exact Hfuel|]. split; [exact Hloop|]. split; [exact Hnum|].
  split; [exact Hrun|]. split; [reflexivity|]. split.
  - rewrite length_fmap. unfold Stubs.every_millisecond.
    rewrite ticks_length. exact scenario_calls_number.
  - split; [|split].
    + by rewrite (scenario_row 0) by lia.
    + by rewrite (scenario_row 1) by lia.
    + by rewrite (scenario_row 2) by lia.
Qed.

Lemma scenario_second_row_is_not_the_second_day :
  Stubs.row (Stubs.scenario_start + milliseconds (Z.of_nat 1))
  ≠ Stubs.row (datetime 2024 1 2).
Proof. vm_compute. discriminate. Qed.

(** C3, the claim as it stands, fails: no run of the scenario returns the
    three rows of 2024-01-01, 2024-01-02 and 2024-01-03; the second row of
    the result is at 00:00:00.001 of 2024-01-01. *)
Lemma scenario_does_not_return_three_daily_rows :
  ¬ ∃ fuel,
      Stubs.scenario fuel =
      Some (Returned
              (Some [Stubs.row (datetime 2024 1 1); Stubs.row (datetime 2024 1 2);
                     Stubs.row (datetime 2024 1 3)]), tt).
Proof.
  intros [fuel Hthree].
  destruct scenario_run as (fuel' & _ & _ & _ & _ & Hrun).
  pose proof (batched_fetch_deterministic _ _ _ _ _ _ _ _ _ Hthree Hrun) as Heq.
  pose proof (scenario_row 1 ltac:(lia)) as Hsecond.
  assert ([Stubs.row (datetime 2024 1 1); Stubs.row (datetime 2024 1 2);
           Stubs.row (datetime 2024 1 3)]
          = Stubs.row <$> Stubs.every_millisecond Stubs.scenario_start Stubs.scenario_end)
    as Hrows.
  { exact (f_equal (fun r => match r with
                             | (Returned (Some df), _) => df
                             | _ => []
                             end) Heq). }
  rewrite <- Hrows in Hsecond.
  apply scenario_second_row_is_not_the_second_day.
  symmetry. exact (Some_inj _ _ Hsecond).
Qed.

Section LogFacts.

Context {W : Type}.

Implicit Types (n : Net W).

Lemma extends_refl n : extends n n.
Proof. exists []. by rewrite app_nil_r. Qed.

Lemma extends_trans n1 n2 n3 : extends n1 n2 → extends n2 n3 → extends n1 n3.
Proof. intros [e1 H1] [e2 H2]. exists (e1 ++ e2). by rewrite H2, H1, app_assoc. Qed.

Lemma extends_urls n n' u : extends n n' → u ∈ urls (log n) → u ∈ urls (log n').
Proof.
  intros [evs ->] Hu. unfold urls in *. rewrite omap_app. set_solver.
Qed.

End LogFacts.

Section TransportFacts.

Context {W : Type}.
Variable session_get : string -> list (string * scalar) -> W -> get_outcome * W.

Implicit Types (n : Net W).


Lemma attempts_S k attempt max_retries url params n :
  attempts session_get (S k) attempt max_retries url params n =
  let '(o, w') := session_get url params (remote n) in
  let n' := mkNet w' (log n ++ [Get url params]) in
  let retry := attempts session_get k (S attempt) max_retries url params in
  match o with
  | Response payload => (decoded payload, n')
  | _ => handler attempt max_retries n' retry
  end.
Proof. simpl. destruct (session_get url params (remote n)) as [[] ?]; done. Qed.


Lemma handler_retry attempt max_retries n retry :
  (attempt + 1 < max_retries)%nat →
  handler attempt max_retries n retry =
  retry (time_sleep ((Z.of_nat attempt + 1) * 2) n).
Proof.
  intros H. unfold handler.
  by replace (Z.of_nat attempt <? Z.of_nat max_retries - 1) with true by lia.
Qed.

Lemma handler_last attempt max_retries n retry :
  (max_retries <= attempt + 1)%nat →
  handler (W:=W) attempt max_retries n retry = (None, n).
Proof.
  intros H. unfold handler.
  by replace (Z.of_nat attempt <? Z.of_nat max_retries - 1) with false by lia.
Qed.

End TransportFacts.

(** C5 (the retries of the transport), as the code has it.  When every
    attempt of a request ends in one of the exceptions that [_make_request]
    catches, [_make_request] (with its default [max_retries=3]) returns
    [None] after three GETs, having waited [2 * (attempt + 1)] seconds
    after each attempt but the last: 2 s, then 4 s. *)
Theorem make_request_gives_up_after_three_attempts {W : Type}
    (session_get : string -> list (string * scalar) -> W -> get_outcome * W)
    (url : string) (params : list (string * scalar)) (n : Net W) :
  (∀ u p w, failed (session_get u p w).1) →
  ∃ w',
    _make_request session_get url params default_max_retries n =
    (None,
     mkNet w'
       (log n ++ [Get url params; Sleep ((0 + 1) * 2); Get url params;
                  Sleep ((1 + 1) * 2); Get url params])).
Proof.
  intros Hfail. unfold _make_request, default_max_retries.
  assert (∀ k attempt m,
            ∃ w', attempts session_get (S k) attempt 3 url params m =
                  handler attempt 3 (mkNet w' (log m ++ [Get url params]))
                    (attempts session_get k (S attempt) 3 url params)) as Hpass.
  { intros k attempt m. rewrite attempts_S.
    pose proof (Hfail url params (remote m)) as Hm.
    destruct (session_get url params (remote m)) as [[] w']; [done|by eexists..]. }
  destruct (Hpass 2%nat 0%nat n) as [w1 ->]. rewrite handler_retry by lia.
  destruct (Hpass 1%nat 1%nat (time_sleep ((Z.of_nat 0 + 1) * 2)
                                 (mkNet w1 (log n ++ [Get url params]))))
    as [w2 ->].
  rewrite handler_retry by lia.
  match goal with
  | |- context [attempts session_get 1 2 3 url params ?m] =>
      destruct (Hpass 0%nat 2%nat m) as [w3 ->]
  end.
  rewrite handler_last by lia. exists w3. simpl. by rewrite <- !app_assoc.
Qed.

Lemma make_request_gives_up_after_three_attempts_witness :
  ∃ w',
    _make_request Servers.timing_out "u" [] default_max_retries
      Servers.offline =
    (None,
     mkNet w'
       (log Servers.offline ++ [Get "u" []; Sleep ((0 + 1) * 2); Get "u" [];
                  Sleep ((1 + 1) * 2); Get "u" []])).
Proof.
  apply (make_request_gives_up_after_three_attempts
           Servers.timing_out "u" [] Servers.offline).
  intros. exact I.
Defined.

(** C5, the claim as it stands, fails: against a server that times out on
    every attempt [_make_request] makes 3 GETs, not 5, and waits 2 s and
    4 s, not as many seconds as the index of the attempt (counted from 0 or
    from 1). *)
Lemma make_request_does_not_make_five_attempts :
  let run :=
    _make_request Servers.timing_out "u" [] default_max_retries
      Servers.offline in
  run.1 = None ∧
  gets (log run.2) = 3%nat ∧ gets (log run.2) ≠ 5%nat ∧
  sleeps (log run.2) = [2; 4] ∧
  sleeps (log run.2) ≠ [0; 1; 2; 3] ∧ sleeps (log run.2) ≠ [1; 2; 3; 4] ∧
  ¬ sleeps (log run.2) `prefix_of` [0; 1; 2; 3] ∧
  ¬ sleeps (log run.2) `prefix_of` [1; 2; 3; 4].
Proof.
  vm_compute. repeat split; try discriminate.
  all: intros [k Hk]; discriminate.
Qed.

Section LogGrowth.

Context {A W : Type}.
Variable time_delta : timedelta.
Variable end_date : instant.
Variable fetch : window_fetcher A (Net W).
Variable u : string.

Hypothesis fetch_logs :
  ∀ a b n, extends n (fetch a b n).2 ∧ u ∈ urls (log (fetch a b n).2).

Implicit Types (st : BatchState A (Net W)).

Lemma step_world st :
  world (state_of (batch_step time_delta end_date fetch st)) =
  (fetch (current_start st) (window_end time_delta end_date st) (world st)).2.
Proof.
  unfold batch_step, window_end.
  destruct (fetch _ _ _) as [res w']. simpl. by repeat case_match.
Qed.

(** The log only grows along the loop, and a loop that makes a call
    leaves a GET to the address of its adapter. *)
Lemma loop_logs fuel st r :
  batched_loop time_delta end_date fetch fuel st = Some r →
  extends (world st) (world (final_state r)) ∧
  (current_start st < end_date → u ∈ urls (log (world (final_state r)))).
Proof.
  revert st. induction fuel as [|fuel IH]; intros st Hr.
  - simpl in Hr. case_match; [done|]. simplify_eq. split; [apply extends_refl|lia].
  - destruct (Z.lt_ge_cases (current_start st) end_date) as [Hrun|Hrun].
    2:{ rewrite loop_stop in Hr by done. simplify_eq.
        split; [apply extends_refl|lia]. }
    rewrite loop_pass in Hr by done.
    pose proof (step_world st) as Hw.
    destruct (fetch_logs (current_start st) (window_end time_delta end_date st)
                (world st)) as [Hext Hu].
    rewrite <- Hw in Hext, Hu.
    destruct (batch_step time_delta end_date fetch st) as [st1|st1|e st1];
      cbn [state_of] in *.
    + apply IH in Hr as [Hext' _]. split.
      * exact (extends_trans _ _ _ Hext Hext').
      * intros _. exact (extends_urls _ _ _ Hext' Hu).
    + simplify_eq. by split.
    + simplify_eq. by split.
Qed.

(** A series whose adapter never brings anything: [None] after at most
    three calls, and its address in the log. *)
Lemma silent_series start_date n :
  (∀ a b m, no_data (fetch a b m).1) →
  0 <= time_delta →
  start_date < end_date →
  ∃ n',
    batched_fetch time_delta end_date fetch 3 start_date n
      = Some (Returned None, n') ∧
    extends n n' ∧ u ∈ urls (log n').
Proof.
  intros Hsilent Hd Hrun.
  destruct (failing_loop time_delta end_date fetch Hsilent 2
              (init_state start_date n)) as (st' & Hloop & _ & Hdata); [done|].
  apply loop_logs in Hloop as Hlog. destruct Hlog as [Hext Hu].
  unfold batched_fetch. rewrite Hloop. simpl in *. rewrite Hdata.
  exists (world st'). split; [done|]. split; [done|]. by apply Hu.
Qed.

End LogGrowth.

(** * More of what the code does *)

Section RunFacts.

Context {A W : Type}.
Variable time_delta : timedelta.
Variable end_date : instant.
Variable fetch : window_fetcher A W.
Hypothesis time_delta_positive : 0 < time_delta.

Implicit Types (st : BatchState A W) (df : DataFrame A).

Lemma page_ends_app (pages : list (DataFrame A)) df t :
  iloc_last df = Some t → page_ends (pages ++ [df]) = page_ends pages ++ [t].
Proof. intros Ht. unfold page_ends. rewrite omap_app. simpl. by rewrite Ht. Qed.

Lemma increasing_snoc (l : list instant) t :
  StronglySorted Z.lt l →
  (∀ x, last l = Some x → x < t) →
  StronglySorted Z.lt (l ++ [t]).
Proof.
  intros Hl Hlast. apply StronglySorted_app. split_and!; [|done|repeat constructor].
  intros x y Hx Hy. apply list_elem_of_singleton in Hy as ->.
  destruct (last l) as [z|] eqn:Hz.
  - specialize (Hlast z eq_refl).
    assert (x <= z); [|lia].
    apply last_Some in Hz as [l' ->].
    apply StronglySorted_app in Hl as (Hcross & _ & _).
    apply elem_of_app in Hx as [Hx|Hx].
    + specialize (Hcross x z Hx). assert (x < z); [|lia]. apply Hcross. set_solver.
    + apply list_elem_of_singleton in Hx as ->. lia.
  - apply last_None in Hz as ->. by apply elem_of_nil in Hx.
Qed.

Lemma iloc_last_nonempty df t : iloc_last df = Some t → df ≠ [].
Proof. by destruct df. Qed.

Lemma init_state_invariant start_date (w : W) :
  run_invariant time_delta end_date (init_state (A:=A) start_date w).
Proof.
  unfold run_invariant, max_consecutive_failures. simpl.
  split_and!; try done; try lia; constructor.
Qed.

(** A pass of the loop keeps the invariant. *)
Lemma step_invariant st :
  run_invariant time_delta end_date st →
  (consecutive_failures st <= 2)%nat →
  current_start st < end_date →
  run_invariant time_delta end_date
    (state_of (batch_step time_delta end_date fetch st)).
Proof.
  intros (Hnum & _ & Hwin & Hne & Hinc & Hlast) Hcf Hrun.
  assert (within_step time_delta end_date
            (current_start st, Z.min (current_start st + time_delta) end_date))
    as Hwindow by (unfold within_step; simpl; lia).
  assert (Forall (within_step time_delta end_date)
            (requested st ++
             [(current_start st, Z.min (current_start st + time_delta) end_date)]))
    as Hwin' by (apply Forall_app; split; [done|by constructor]).
  unfold batch_step. repeat case_match; simplify_eq; unfold run_invariant;
    cbn -[page_ends].
  all: rewrite ?length_app; cbn -[page_ends].
  all: split_and!; try done; try lia.
  all: try (unfold max_consecutive_failures in *; lia).
  all: try (apply Forall_app; split; [done|constructor; [|done]];
            by eapply iloc_last_nonempty).
  all: try (erewrite page_ends_app by done; apply increasing_snoc; [done|];
            intros x Hx; rewrite <- Hlast in Hx;
            match goal with H : stalled _ _ = false |- _ =>
              unfold stalled in H; rewrite Hx in H; lia end).
  all: try (erewrite page_ends_app by done; by rewrite last_snoc).
  all: try match goal with
           | H : (max_consecutive_failures <=? _)%nat = false |- _ =>
               apply Nat.leb_gt in H; unfold max_consecutive_failures in *; lia
           end.
Qed.

(** The invariant holds when the loop is left. *)
Lemma loop_invariant fuel st r :
  run_invariant time_delta end_date st →
  (consecutive_failures st <= 2)%nat →
  batched_loop time_delta end_date fetch fuel st = Some r →
  run_invariant time_delta end_date (final_state r).
Proof.
  revert st. induction fuel as [|fuel IH]; intros st Hinv Hcf Hr.
  - simpl in Hr. destruct (current_start st <? end_date); [done|]. by simplify_eq.
  - destruct (Z.lt_ge_cases (current_start st) end_date) as [Hrun|Hrun].
    2:{ rewrite loop_stop in Hr by done. by simplify_eq. }
    rewrite loop_pass in Hr by done.
    pose proof (step_invariant st Hinv Hcf Hrun) as Hstep.
    destruct (batch_step time_delta end_date fetch st) as [st1|st1|e st1] eqn:E;
      cbn [state_of] in Hstep; [|by simplify_eq..].
    apply (IH st1); [done| |done].
    apply step_continue in E as [(_ & _ & Hle)|(t & _ & -> & _)]; lia.
Qed.

(** The invariant holds whenever the condition of the loop is tested, and
    the failures in a row are then two at most. *)
Lemma reaches_invariant st0 st :
  run_invariant time_delta end_date st0 →
  (consecutive_failures st0 <= 2)%nat →
  reaches time_delta end_date fetch st0 st →
  run_invariant time_delta end_date st ∧ (consecutive_failures st <= 2)%nat.
Proof.
  intros Hinv Hcf. induction 1 as [|st st' Hreach [IHinv IHcf] Hrun Hstep]; [done|].
  pose proof (step_invariant st IHinv IHcf Hrun) as Hinv'.
  rewrite Hstep in Hinv'. split; [done|].
  apply step_continue in Hstep as [(_ & _ & Hle)|(t & _ & -> & _)]; lia.
Qed.

Lemma visits_invariant st0 st :
  run_invariant time_delta end_date st0 →
  (consecutive_failures st0 <= 2)%nat →
  visits time_delta end_date fetch st0 st →
  run_invariant time_delta end_date st.
Proof.
  intros Hinv Hcf [Hreach|(st1 & Hreach & Hrun & ->)].
  - by apply (reaches_invariant st0).
  - destruct (reaches_invariant st0 st1) as [Hinv1 Hcf1]; [done..|].
    by apply step_invariant.
Qed.

Lemma reaches_trans st0 st1 st2 :
  reaches time_delta end_date fetch st0 st1 →
  reaches time_delta end_date fetch st1 st2 →
  reaches time_delta end_date fetch st0 st2.
Proof.
  intros H1. induction 1 as [|st st' Hreach IH Hrun Hstep]; [done|].
  by eapply reaches_pass.
Qed.

(** The state in which the loop is left is one of the states of the run. *)
Lemma loop_visits fuel st r :
  batched_loop time_delta end_date fetch fuel st = Some r →
  visits time_delta end_date fetch st (final_state r).
Proof.
  revert st. induction fuel as [|fuel IH]; intros st Hr.
  - simpl in Hr. destruct (current_start st <? end_date); [done|].
    simplify_eq. left. constructor.
  - destruct (Z.lt_ge_cases (current_start st) end_date) as [Hrun|Hrun].
    2:{ rewrite loop_stop in Hr by done. simplify_eq. left. constructor. }
    rewrite loop_pass in Hr by done.
    destruct (batch_step time_delta end_date fetch st) as [st1|st1|e st1] eqn:E.
    + assert (reaches time_delta end_date fetch st st1) as Hfirst
        by (eapply reaches_pass; [constructor|done|done]).
      apply IH in Hr as [Hreach|(st2 & Hreach & Hrun2 & Hfinal)].
      * left. by eapply reaches_trans.
      * right. exists st2. split; [by eapply reaches_trans|done].
    + simplify_eq. right. exists st. rewrite E. split; [constructor|done].
    + simplify_eq. right. exists st. rewrite E. split; [constructor|done].
Qed.

Lemma run_keeps_invariant fuel start_date (w : W) r :
  batched_loop time_delta end_date fetch fuel (init_state start_date w) = Some r →
  run_invariant time_delta end_date (final_state r).
Proof.
  apply loop_invariant; [apply init_state_invariant|simpl; lia].
Qed.

End RunFacts.

(** X1 (the merge keeps the row fetched first).  Of the rows of one
    timestamp the merged frame has the one that comes first in the pages as
    they were fetched and concatenated; it has no row that was not fetched,
    every timestamp that was fetched, and no more rows than the pages
    together. *)
Theorem merge_keeps_first_fetched {A : Type} (all_data : list (DataFrame A)) :
  (∀ k : instant,
     filter (fun x => timestamp x = k) (merge_frames all_data) =
     take 1 (filter (fun x => timestamp x = k) (concat all_data))) ∧
  (∀ x, x ∈ merge_frames all_data → x ∈ concat all_data) ∧
  (∀ k : instant,
     k ∈ timestamp <$> merge_frames all_data ↔
     k ∈ timestamp <$> concat all_data) ∧
  (length (merge_frames all_data) <= length (concat all_data))%nat.
Proof.
  change (concat all_data) with (pd_concat all_data).
  split_and!.
  - apply merge_frames_first_fetched.
  - apply merge_frames_subset.
  - apply merge_frames_timestamps.
  - unfold merge_frames. rewrite sort_values_Permutation.
    generalize (pd_concat all_data). intros l.
    induction l as [|x l IH]; simpl; [lia|].
    pose proof (length_filter (fun y => timestamp y ≠ timestamp x) (drop_duplicates l)).
    lia.
Qed.

Section ResultFacts.

Context {A W : Type}.
Variable time_delta : timedelta.
Variable end_date : instant.
Variable fetch : window_fetcher A W.

Implicit Types (st : BatchState A W) (df : DataFrame A).

Lemma concat_nonempty (pages : list (DataFrame A)) :
  pages ≠ [] → Forall (fun df => df ≠ []) pages → pd_concat pages ≠ [].
Proof.
  destruct pages as [|df pages]; [done|]. intros _ [Hdf _]%Forall_cons_1.
  unfold pd_concat. simpl. by destruct df.
Qed.

(** What the function hands back is [None] or a frame with at least one row
    and strictly ascending timestamps. *)
Lemma batched_fetch_result fuel start_date (w : W) df w' :
  0 < time_delta →
  batched_fetch time_delta end_date fetch fuel start_date w
    = Some (Returned (Some df), w') →
  df ≠ [] ∧ strictly_ascending df.
Proof.
  intros Hd. unfold batched_fetch.
  destruct (batched_loop _ _ _ _ _) as [r|] eqn:Hloop; [|done].
  apply (run_keeps_invariant _ _ _ Hd) in Hloop as (_ & _ & _ & Hne & _).
  destruct r as [st|e st]; simpl in *; [|done].
  unfold finish. destruct (all_data st) as [|page pages] eqn:E; [done|].
  intros [= <- _]. split.
  - by apply merge_frames_nonempty, concat_nonempty.
  - apply strictly_ascending_merge_frames.
Qed.

End ResultFacts.

(** X2 (the shape of the result).  Whatever the adapter does, what the
    batching loop returns as a frame has at least one row, and its
    timestamps are strictly ascending: the caller may take [iloc[0]] and
    [iloc[-1]] of it. *)
Theorem batched_result_is_a_proper_frame {A W : Type}
    (time_delta : timedelta) (end_date : instant) (fetch : window_fetcher A W)
    (fuel : nat) (start_date : instant) (w : W) (df : DataFrame A) (w' : W) :
  0 < time_delta →
  batched_fetch time_delta end_date fetch fuel start_date w
    = Some (Returned (Some df), w') →
  df ≠ [] ∧ strictly_ascending df.
Proof. apply batched_fetch_result. Qed.

Lemma batched_result_is_a_proper_frame_witness :
  [Stubs.row 0; Stubs.row 1000] ≠ [] ∧
  strictly_ascending [Stubs.row 0; Stubs.row 1000].
Proof.
  apply (batched_result_is_a_proper_frame (hours 500) 2000
           (fun a b => Stubs.at_window_start "5m" a b 500) 2 0 tt
           [Stubs.row 0; Stubs.row 1000] tt).
  - reflexivity.
  - reflexivity.
Defined.

(** X3 (the windows asked for).  In every run each window that the loop asks
    for is not empty, ends at or before [end_date] and is at most one step
    wide, and the loop made one call per window. *)
Theorem requested_windows_fit {A W : Type}
    (time_delta : timedelta) (end_date : instant) (fetch : window_fetcher A W)
    (fuel : nat) (start_date : instant) (w : W) (r : loop_end A W) :
  0 < time_delta →
  batched_loop time_delta end_date fetch fuel (init_state start_date w) = Some r →
  Forall (within_step time_delta end_date) (requested (final_state r)) ∧
  calls r = length (requested (final_state r)).
Proof.
  intros Hd Hloop.
  apply (run_keeps_invariant _ _ _ Hd) in Hloop as (Hnum & _ & Hwin & _).
  by split.
Qed.

Lemma requested_windows_fit_witness :
  Forall (within_step (period_step "5m") (days 30))
    [(0, 0 + period_step "5m");
     (period_step "5m" + milliseconds 1, 2 * period_step "5m" + milliseconds 1);
     (2 * period_step "5m" + milliseconds 2, 3 * period_step "5m" + milliseconds 2)] ∧
  3%nat = length
    [(0, 0 + period_step "5m");
     (period_step "5m" + milliseconds 1, 2 * period_step "5m" + milliseconds 1);
     (2 * period_step "5m" + milliseconds 2, 3 * period_step "5m" + milliseconds 2)].
Proof.
  apply (requested_windows_fit (period_step "5m") (days 30)
           (fun a b => Stubs.silent "5m" a b 500) 3 0 tt
           (Finished
              (mkBatch [] (2 * period_step "5m" + milliseconds 2) None 3 3 tt
                 [(0, 0 + period_step "5m");
                  (period_step "5m" + milliseconds 1,
                   2 * period_step "5m" + milliseconds 1);
                  (2 * period_step "5m" + milliseconds 2,
                   3 * period_step "5m" + milliseconds 2)]))).
  - reflexivity.
  - vm_compute. reflexivity.
Defined.

(** X4 (the pages taken in).  In every state of a run, in which the
    condition of the loop is tested or a pass has just ended, every page
    taken in has at least one row, the last timestamps of the pages taken in
    are strictly increasing, [last_timestamp] is the last of them, and the
    count of consecutive failures is three at most; the state in which the
    loop is left is such a state. *)
Theorem pages_taken_advance {A W : Type}
    (time_delta : timedelta) (end_date : instant) (fetch : window_fetcher A W)
    (start_date : instant) (w : W) :
  0 < time_delta →
  (∀ st,
     visits time_delta end_date fetch (init_state start_date w) st →
     Forall (fun df => df ≠ []) (all_data st) ∧
     StronglySorted Z.lt (page_ends (all_data st)) ∧
     last_timestamp st = last (page_ends (all_data st)) ∧
     (consecutive_failures st <= 3)%nat) ∧
  (∀ fuel r,
     batched_loop time_delta end_date fetch fuel (init_state start_date w) = Some r →
     visits time_delta end_date fetch (init_state start_date w) (final_state r)).
Proof.
  intros Hd. split.
  - intros st Hvisit.
    apply (visits_invariant _ _ _ Hd) in Hvisit
      as (_ & Hcf & _ & Hne & Hinc & Hlast);
      [by split_and!|apply init_state_invariant|simpl; lia].
  - intros fuel r. apply loop_visits.
Qed.

Lemma pages_taken_advance_witness :
  let fetch : window_fetcher unit unit :=
    fun a b => Stubs.at_window_start "5m" a b 500 in
  (∀ st,
     visits (hours 500) 2000 fetch (init_state 0 tt) st →
     Forall (fun df => df ≠ []) (all_data st) ∧
     StronglySorted Z.lt (page_ends (all_data st)) ∧
     last_timestamp st = last (page_ends (all_data st)) ∧
     (consecutive_failures st <= 3)%nat) ∧
  (∀ fuel r,
     batched_loop (hours 500) 2000 fetch fuel (init_state 0 tt) = Some r →
     visits (hours 500) 2000 fetch (init_state 0 tt) (final_state r)).
Proof.
  apply (pages_taken_advance (hours 500) 2000
           (fun a b => Stubs.at_window_start "5m" a b 500) 0 tt).
  reflexivity.
Defined.

Section Progress.

Context {A W : Type}.
Variable time_delta : timedelta.
Variable end_date : instant.
Variable fetch : window_fetcher A W.
Hypothesis time_delta_positive : 0 < time_delta.
Hypothesis fetch_in_window :
  ∀ a b w df w' t,
    fetch a b w = (Returned (Some df), w') → iloc_last df = Some t → a <= t.

Implicit Types (st : BatchState A W).

Lemma requested_step st :
  requested (state_of (batch_step time_delta end_date fetch st)) =
  requested st ++ [(current_start st, window_end time_delta end_date st)].
Proof.
  unfold batch_step, window_end. by repeat case_match.
Qed.

Lemma starts_step st :
  starts_before_cursor st →
  current_start st < end_date →
  StronglySorted Z.lt
    ((requested (state_of (batch_step time_delta end_date fetch st))).*1) ∧
  ∀ st1, batch_step time_delta end_date fetch st = Continue st1 →
         starts_before_cursor st1.
Proof.
  intros [Hsorted Hbefore] Hrun.
  assert (StronglySorted Z.lt
            ((requested st ++
              [(current_start st, window_end time_delta end_date st)]).*1))
    as Hsorted'.
  { rewrite fmap_app. apply StronglySorted_app. split_and!; [|done|repeat constructor].
    intros a b Ha Hb. apply list_elem_of_singleton in Hb as ->.
    rewrite Forall_forall in Hbefore. by apply Hbefore. }
  split; [by rewrite requested_step|].
  intros st1 Hstep.
  assert (current_start st < current_start st1) as Hadvance.
  { revert Hstep. unfold batch_step.
    repeat case_match; intros; simplify_eq; cbn; unfold milliseconds; try lia.
    match goal with
    | Hf : fetch _ _ _ = (Returned (Some _), _), Hl : iloc_last _ = Some _ |- _ =>
        pose proof (fetch_in_window _ _ _ _ _ _ Hf Hl)
    end. lia. }
  assert (requested st1 =
          requested st ++ [(current_start st, window_end time_delta end_date st)])
    as Hreq by (rewrite <- requested_step, Hstep; done).
  split; [by rewrite Hreq|].
  rewrite Hreq, fmap_app. apply Forall_app. split.
  - eapply Forall_impl; [exact Hbefore|]. simpl; intros; lia.
  - by repeat constructor.
Qed.

Lemma loop_starts fuel st r :
  starts_before_cursor st →
  batched_loop time_delta end_date fetch fuel st = Some r →
  StronglySorted Z.lt ((requested (final_state r)).*1).
Proof.
  revert st. induction fuel as [|fuel IH]; intros st Hst Hr.
  - simpl in Hr. destruct (current_start st <? end_date); [done|].
    simplify_eq. apply Hst.
  - destruct (Z.lt_ge_cases (current_start st) end_date) as [Hrun|Hrun].
    2:{ rewrite loop_stop in Hr by done. simplify_eq. apply Hst. }
    rewrite loop_pass in Hr by done.
    destruct (starts_step st Hst Hrun) as [Hsorted Hnext].
    destruct (batch_step time_delta end_date fetch st) as [st1|st1|e st1];
      cbn [state_of] in Hsorted; [|by simplify_eq..].
    eapply IH; [|exact Hr]. by apply Hnext.
Qed.

End Progress.

(** X5 (no window twice).  When the last row of every page that the adapter
    returns is not older than the start of the window asked for, the
    windows of a run start strictly one after the other: no request is made
    twice, whether the calls succeed or fail. *)
Theorem windows_are_never_repeated {A W : Type}
    (time_delta : timedelta) (end_date : instant) (fetch : window_fetcher A W)
    (fuel : nat) (start_date : instant) (w : W) (r : loop_end A W) :
  0 < time_delta →
  (∀ a b w0 df w' t,
     fetch a b w0 = (Returned (Some df), w') → iloc_last df = Some t → a <= t) →
  batched_loop time_delta end_date fetch fuel (init_state start_date w) = Some r →
  StronglySorted Z.lt ((requested (final_state r)).*1) ∧
  NoDup (requested (final_state r)).
Proof.
  intros Hd Hfetch Hloop.
  assert (StronglySorted Z.lt ((requested (final_state r)).*1)) as Hsorted.
  { eapply loop_starts; [done|done| |exact Hloop]. split; simpl; constructor. }
  split; [done|].
  apply (NoDup_fmap_1 fst).
  clear -Hsorted. induction Hsorted as [|a l Hl IH Ha]; constructor; [|done].
  intros Hin. rewrite Forall_forall in Ha. specialize (Ha a Hin). lia.
Qed.

Lemma windows_are_never_repeated_witness :
  StronglySorted Z.lt ([(0, 2000); (1000, 2000)].*1) ∧
  NoDup [(0, 2000); (1000, 2000)].
Proof.
  apply (windows_are_never_repeated (hours 500) 2000
           (fun a b => Stubs.at_window_start "5m" a b 500) 2 0 tt
           (Finished
              (mkBatch [[Stubs.row 0]; [Stubs.row 1000]] 2000 (Some 1000) 2 0 tt
                 [(0, 2000); (1000, 2000)]))).
  - reflexivity.
  - intros a b w0 df w' t [= <- _] [= <-]. lia.
  - reflexivity.
Defined.

(** X6 (the loop ends).  For every adapter, whatever it returns or raises,
    both batching functions end: some bound on the passes is enough for
    a result. *)
Theorem batching_always_ends :
  (∀ (A W : Type) (fetch_func : adapter A W) (period : string)
     (start_date end_date : instant) (w : W),
     ∃ fuel, is_Some (_get_batched_data fuel fetch_func period start_date end_date w)) ∧
  (∀ (W F : Type)
     (session_get : string -> list (string * scalar) -> W -> get_outcome * W)
     (to_datetime : option scalar -> option instant)
     (to_float : option scalar -> option F) (symbol : string)
     (start_date end_date : instant) (n : Net W),
     ∃ fuel,
       is_Some (_get_batched_funding_rate session_get to_datetime to_float symbol
                  fuel start_date end_date n)).
Proof.
  split; intros; apply batched_fetch_terminates.
Qed.

Section RequestFacts.

Context {W : Type}.
Variable session_get : string -> list (string * scalar) -> W -> get_outcome * W.

Implicit Types (n : Net W).

Lemma retry_trace_S url params attempt k :
  retry_trace url params attempt (S (S k)) =
  Get url params :: Sleep ((Z.of_nat attempt + 1) * 2)
  :: retry_trace url params (S attempt) (S k).
Proof. done. Qed.

Lemma decoded_cases payload :
  (decoded payload = None ∧ payload = JScalar SNull) ∨
  (decoded payload = Some payload ∧ payload ≠ JScalar SNull).
Proof. destruct payload as [[]| | | | |]; by (left + right). Qed.

(** What a request hands back: [None] when all attempts were used or when
    the body of an answer was [null], else the body of an answer. *)
Local Abbreviation handed_back url params remaining k result :=
  (match result with
   | None =>
       k = remaining ∨
       ∃ w, (session_get url params w).1 = Response (JScalar SNull)
   | Some payload =>
       payload ≠ JScalar SNull ∧
       ∃ w, (session_get url params w).1 = Response payload
   end).

(** The attempts of a request, whatever the server does: at least one GET
    when one is allowed, never more than allowed, a pause of
    [2 * (attempt + 1)] seconds between two of them. *)
Lemma attempts_trace remaining attempt max_retries url params n :
  (remaining + attempt = max_retries)%nat →
  ∃ k,
    (Nat.min 1 remaining <= k <= remaining)%nat ∧
    log (attempts session_get remaining attempt max_retries url params n).2
      = log n ++ retry_trace url params attempt k ∧
    handed_back url params remaining k
      (attempts session_get remaining attempt max_retries url params n).1.
Proof.
  revert attempt n. induction remaining as [|remaining IH]; intros attempt n Hsum.
  { exists 0%nat. simpl. rewrite app_nil_r. split; [lia|]. split; [done|by left]. }
  rewrite attempts_S.
  destruct (session_get url params (remote n)) as [o w'] eqn:Hget.
  set (n1 := mkNet w' (log n ++ [Get url params])).
  assert (∃ k,
            (1 <= k <= S remaining)%nat ∧
            log (handler attempt max_retries n1
                   (attempts session_get remaining (S attempt) max_retries url params)).2
              = log n ++ retry_trace url params attempt k ∧
            handed_back url params (S remaining) k
              (handler attempt max_retries n1
                 (attempts session_get remaining (S attempt) max_retries
                    url params)).1) as Hfailed.
  { destruct remaining as [|remaining].
    - rewrite handler_last by lia. exists 1%nat. split; [lia|].
      split; [done|by left].
    - rewrite handler_retry by lia.
      destruct (IH (S attempt)
                  (time_sleep ((Z.of_nat attempt + 1) * 2) n1)) as (k & Hk & Hlog & Hres);
        [lia|].
      destruct k as [|k]; [simpl in Hk; lia|].
      exists (S (S k)). split; [simpl in Hk; lia|]. split.
      + rewrite Hlog, retry_trace_S. subst n1. simpl. by rewrite <- !app_assoc.
      + destruct (attempts _ _ _ _ _ _ _).1; [done|].
        destruct Hres as [->|Hnull]; [by left|by right]. }
  destruct o as [payload| | |]; [|exact Hfailed..].
  exists 1%nat. cbn [fst snd]. split; [lia|]. split; [done|].
  assert ((session_get url params (remote n)).1 = Response payload) as Hanswer
    by (by rewrite Hget).
  destruct (decoded_cases payload) as [[-> ->]|[-> Hsome]].
  - right. by exists (remote n).
  - split; [done|]. by exists (remote n).
Qed.

Lemma retry_trace_gets url params attempt k :
  gets (retry_trace url params attempt k) = k.
Proof.
  revert attempt. induction k as [|[|k] IH]; intros attempt; [done..|].
  rewrite retry_trace_S.
  change (gets (Get url params :: Sleep ((Z.of_nat attempt + 1) * 2)
                :: retry_trace url params (S attempt) (S k)))
    with (S (gets (retry_trace url params (S attempt) (S k)))).
  by rewrite IH.
Qed.

Lemma retry_trace_sleeps url params attempt k :
  sleeps (retry_trace url params attempt k) =
  (fun i => (Z.of_nat i + 1) * 2) <$> seq attempt (k - 1).
Proof.
  revert attempt. induction k as [|[|k] IH]; intros attempt; [done..|].
  rewrite retry_trace_S.
  change (sleeps (Get url params :: Sleep ((Z.of_nat attempt + 1) * 2)
                  :: retry_trace url params (S attempt) (S k)))
    with ((Z.of_nat attempt + 1) * 2
          :: sleeps (retry_trace url params (S attempt) (S k))).
  rewrite IH. replace (S (S k) - 1)%nat with (S (S k - 1)) by lia. done.
Qed.

Lemma retry_trace_same_request url params attempt k :
  Forall (fun e => match e with
                   | Get u p => u = url ∧ p = params
                   | Sleep _ => True
                   end) (retry_trace url params attempt k).
Proof.
  revert attempt. induction k as [|[|k] IH]; intros attempt.
  - constructor.
  - by repeat constructor.
  - rewrite retry_trace_S. by repeat constructor.
Qed.

End RequestFacts.

(** X7 (the attempts of a request).  Whatever the server does,
    [_make_request] with [max_retries] attempts allowed sends between one
    GET (when [max_retries] is not 0) and [max_retries] GETs, all with the
    same address and parameters, and between two of them waits
    [2 * (attempt + 1)] seconds.  What it returns other than [None] is the
    body of an answer; it returns [None] only after all [max_retries]
    attempts, or when the body of an answer is [null]. *)
Theorem make_request_attempts {W : Type}
    (session_get : string -> list (string * scalar) -> W -> get_outcome * W)
    (url : string) (params : list (string * scalar)) (max_retries : nat)
    (n : Net W) :
  ∃ k evs,
    (Nat.min 1 max_retries <= k <= max_retries)%nat ∧
    log (_make_request session_get url params max_retries n).2 = log n ++ evs ∧
    gets evs = k ∧
    sleeps evs = (fun i => (Z.of_nat i + 1) * 2) <$> seq 0 (k - 1) ∧
    Forall (fun e => match e with
                     | Get u p => u = url ∧ p = params
                     | Sleep _ => True
                     end) evs ∧
    match (_make_request session_get url params max_retries n).1 with
    | None =>
        k = max_retries ∨
        ∃ w, (session_get url params w).1 = Response (JScalar SNull)
    | Some payload =>
        payload ≠ JScalar SNull ∧
        ∃ w, (session_get url params w).1 = Response payload
    end.
Proof.
  destruct (attempts_trace session_get max_retries 0 max_retries url params n)
    as (k & Hk & Hlog & Hres); [lia|].
  exists k, (retry_trace url params 0 k). split; [done|]. split; [done|].
  split; [apply retry_trace_gets|]. split; [apply retry_trace_sleeps|].
  split; [apply retry_trace_same_request|exact Hres].
Qed.

Section ParseFacts.

Import Pandas.

Context {W F : Type}.
Variable session_get : string -> list (string * scalar) -> W -> get_outcome * W.
Variable to_datetime : option scalar -> option instant.
Variable to_float : option scalar -> option F.
Variable symbol : string.

Implicit Types (n : Net W) (df : Frame F) (r : gmap string (cell F)).

(** A request that the server answers at once. *)
Lemma request_answered url params n payload :
  (session_get url params (remote n)).1 = Response payload →
  (request session_get url params n).1 = decoded payload.
Proof.
  unfold request, _make_request, default_max_retries. rewrite attempts_S.
  destruct (session_get url params (remote n)) as [o w']. simpl. by intros ->.
Qed.

Lemma usable_list_not_a_list payload :
  is_list payload = false → usable_list (decoded payload) = None.
Proof.
  destruct (decoded_cases payload) as [[-> _]|[-> _]]; [done|].
  unfold usable_list. intros ->. by destruct (truthy payload).
Qed.

Lemma decoded_truthy payload :
  truthy payload = true → decoded payload = Some payload.
Proof. by destruct payload as [[]| | | | |]. Qed.

Lemma unchecked_flat (columns : list string) payload :
  truthy payload = true → is_flat payload = true →
  unchecked to_datetime to_float columns (decoded payload) = Raised ValueError.
Proof.
  intros Htrue Hflat. rewrite decoded_truthy by done.
  unfold unchecked. rewrite Htrue. by destruct payload.
Qed.

Lemma unchecked_columns (columns : list string) fields :
  truthy (JColumns fields) = true →
  columns_agree fields = true →
  fields !! "timestamp" = None →
  unchecked to_datetime to_float columns (decoded (JColumns fields))
  = Raised (KeyError "timestamp").
Proof.
  intros Htrue Hagree Htime. cbn [decoded]. unfold unchecked. rewrite Htrue.
  cbn [negb DataFrame_of]. rewrite Hagree. cbn [bind].
  unfold with_datetime, convert_column, getitem. cbn [Pandas.columns].
  rewrite bool_decide_eq_false_2; [done|]. by apply not_elem_of_dom.
Qed.

End ParseFacts.

(** X8 (payloads that are not lists, checked adapters).  When the server
    answers with a payload that is not a list (a scalar, an object such as
    an error body), [get_basis_data], [get_funding_rate] and [get_klines]
    return [None]: they do not raise. *)
Theorem checked_adapters_return_none_on_non_lists {W F : Type}
    (session_get : string -> list (string * scalar) -> W -> get_outcome * W)
    (to_datetime : option scalar -> option instant)
    (to_float : option scalar -> option F)
    (symbol period : string) (start_time end_time : instant) (limit : Z)
    (payload : json) (n : Net W) :
  (∀ url params w, (session_get url params w).1 = Response payload) →
  is_list payload = false →
  (get_basis_data session_get to_datetime to_float symbol period start_time
     end_time limit n).1 = Returned None ∧
  (get_funding_rate session_get to_datetime to_float symbol start_time end_time
     limit n).1 = Returned None ∧
  (get_klines session_get to_datetime to_float symbol period start_time end_time
     limit n).1 = Returned None.
Proof.
  intros Hserver Hlist.
  unfold get_basis_data, get_funding_rate, get_klines.
  split_and!.
  all: match goal with
       | |- context [request _ ?u ?p ?m] =>
           pose proof (request_answered session_get u p m payload (Hserver _ _ _)) as Hr;
           destruct (request session_get u p m) as [data n']
       end.
  all: simpl in Hr; subst data; by rewrite usable_list_not_a_list.
Qed.

Lemma checked_adapters_return_none_on_non_lists_witness :
  (get_basis_data Replies.refusing Servers.no_datetime Servers.no_float "BTCUSDT" "5m"
     (datetime 2024 1 1) (datetime 2024 1 2) 500 Servers.offline).1 = Returned None ∧
  (get_funding_rate Replies.refusing Servers.no_datetime Servers.no_float "BTCUSDT"
     (datetime 2024 1 1) (datetime 2024 1 2) 500 Servers.offline).1 = Returned None ∧
  (get_klines Replies.refusing Servers.no_datetime Servers.no_float "BTCUSDT" "5m"
     (datetime 2024 1 1) (datetime 2024 1 2) 500 Servers.offline).1 = Returned None.
Proof.
  apply (checked_adapters_return_none_on_non_lists Replies.refusing
           Servers.no_datetime Servers.no_float "BTCUSDT" "5m"
           (datetime 2024 1 1) (datetime 2024 1 2) 500 Replies.error_body
           Servers.offline).
  - intros. reflexivity.
  - reflexivity.
Defined.

(** X9 (payloads that are not lists, unchecked adapters).  Let the server
    answer with a payload that Python takes for true.  When it is a scalar
    or an object of scalars (an error body, a number other than 0),
    [get_open_interest_hist] and the three ratio adapters raise the
    ValueError of [pd.DataFrame(data)].  When it is an object of lists of
    one length, none of them under [timestamp], the frame is built and the
    four adapters raise the KeyError of [df['timestamp']]. *)
Theorem unchecked_adapters_raise_on_non_lists {W F : Type}
    (session_get : string -> list (string * scalar) -> W -> get_outcome * W)
    (to_datetime : option scalar -> option instant)
    (to_float : option scalar -> option F)
    (symbol period : string) (start_time end_time : instant) (limit : Z)
    (payload : json) (n : Net W) :
  (∀ url params w, (session_get url params w).1 = Response payload) →
  truthy payload = true →
  let results : list (fetch_result (row_cells (F:=F))) :=
    [ (get_open_interest_hist session_get to_datetime to_float symbol period
         start_time end_time limit n).1;
      (get_top_long_short_account_ratio session_get to_datetime to_float symbol
         period start_time end_time limit n).1;
      (get_top_long_short_position_ratio session_get to_datetime to_float symbol
         period start_time end_time limit n).1;
      (get_global_long_short_account_ratio session_get to_datetime to_float symbol
         period start_time end_time limit n).1 ] in
  (is_flat payload = true → Forall (fun r => r = Raised ValueError) results) ∧
  (∀ fields,
     payload = JColumns fields →
     Pandas.columns_agree fields = true →
     fields !! "timestamp" = None →
     Forall (fun r => r = Raised (KeyError "timestamp")) results).
Proof.
  intros Hserver Htrue results. subst results.
  unfold get_open_interest_hist, get_top_long_short_account_ratio,
    get_top_long_short_position_ratio, get_global_long_short_account_ratio.
  split.
  - intros Hflat. repeat apply Forall_cons_2; [..|apply Forall_nil_2].
    all: match goal with
         | |- context [request _ ?u ?p ?m] =>
             pose proof (request_answered session_get u p m payload (Hserver _ _ _))
               as Hr;
             destruct (request session_get u p m) as [data n']
         end.
    all: simpl in Hr; subst data; by apply unchecked_flat.
  - intros fields -> Hagree Htime.
    repeat apply Forall_cons_2; [..|apply Forall_nil_2].
    all: match goal with
         | |- context [request _ ?u ?p ?m] =>
             pose proof (request_answered session_get u p m _ (Hserver _ _ _))
               as Hr;
             destruct (request session_get u p m) as [data n']
         end.
    all: cbn [fst] in Hr |- *; subst data; by apply unchecked_columns.
Qed.

Lemma unchecked_adapters_raise_on_non_lists_witness :
  let results : list (fetch_result (row_cells (F:=unit))) :=
    [ (get_open_interest_hist Replies.refusing Servers.no_datetime Servers.no_float
         "BTCUSDT" "5m" (datetime 2024 1 1) (datetime 2024 1 2) 500
         Servers.offline).1;
      (get_top_long_short_account_ratio Replies.refusing Servers.no_datetime
         Servers.no_float "BTCUSDT" "5m" (datetime 2024 1 1) (datetime 2024 1 2) 500
         Servers.offline).1;
      (get_top_long_short_position_ratio Replies.refusing Servers.no_datetime
         Servers.no_float "BTCUSDT" "5m" (datetime 2024 1 1) (datetime 2024 1 2) 500
         Servers.offline).1;
      (get_global_long_short_account_ratio Replies.refusing Servers.no_datetime
         Servers.no_float "BTCUSDT" "5m" (datetime 2024 1 1) (datetime 2024 1 2) 500
         Servers.offline).1 ] in
  (is_flat Replies.error_body = true →
   Forall (fun r => r = Raised ValueError) results) ∧
  (∀ fields,
     Replies.error_body = JColumns fields →
     Pandas.columns_agree fields = true →
     fields !! "timestamp" = None →
     Forall (fun r => r = Raised (KeyError "timestamp")) results).
Proof.
  apply (unchecked_adapters_raise_on_non_lists Replies.refusing
           Servers.no_datetime Servers.no_float "BTCUSDT" "5m"
           (datetime 2024 1 1) (datetime 2024 1 2) 500 Replies.error_body
           Servers.offline).
  - intros. reflexivity.
  - vm_compute. reflexivity.
Defined.

(** An object of two lists of prices: the frame is built, and the adapter
    fails on the column that is not there. *)
Example object_of_lists_is_a_frame :
  let prices : gmap string (list scalar) :=
    {[ "open" := [SNum 10; SNum 11]; "close" := [SNum 11; SNum 12] ]} in
  (get_open_interest_hist
     (fun _ _ w => (Response (JColumns prices), w))
     Servers.no_datetime Servers.no_float
     "BTCUSDT" "5m" (datetime 2024 1 1) (datetime 2024 1 2) 500 Servers.offline).1
  = Raised (KeyError "timestamp").
Proof. vm_compute. reflexivity. Qed.

Section ConversionFacts.

Import Pandas.

Context {F : Type}.
Variable to_datetime : option scalar -> option instant.
Variable to_float : option scalar -> option F.

Implicit Types (df : Frame F) (r : gmap string (cell F)) (c : string).

Lemma mapM_converted (convert : option (cell F) -> option (cell F)) c
    (rows : list (gmap string (cell F))) :
  Forall (fun r => is_Some (convert (r !! c))) rows →
  ∃ values,
    mapM convert ((fun r => r !! c) <$> rows) = Some values ∧
    zip_with (fun r v => <[c := v]> r) rows values = converted convert c <$> rows.
Proof.
  induction 1 as [|r rows [v Hv] Hrows (values & Hm & Hz)].
  - by exists [].
  - exists (v :: values). split.
    + cbn. rewrite Hv. cbn. fold (fmap (M:=list) (fun r => r !! c) rows).
      by rewrite Hm.
    + cbn. rewrite Hz. unfold converted at 2. by rewrite Hv.
Qed.

(** The conversion of a column that is there and whose cells all
    convert. *)
Lemma convert_column_converted (convert : option (cell F) -> option (cell F)) c df :
  c ∈ columns df →
  Forall (fun r => is_Some (convert (r !! c))) (body df) →
  convert_column convert c df =
  inr (mkFrame (columns df ∪ {[c]}) (converted convert c <$> body df)).
Proof.
  intros Hc Hrows. unfold convert_column, getitem.
  rewrite bool_decide_true by done. cbn [bind].
  destruct (mapM_converted convert c (body df) Hrows) as (values & -> & Hz).
  unfold setitem. by rewrite Hz.
Qed.

Lemma converted_lookup_ne (convert : option (cell F) -> option (cell F)) c c' r :
  c ≠ c' → converted convert c r !! c' = r !! c'.
Proof.
  intros Hc. unfold converted. destruct (convert (r !! c)); [|done].
  by rewrite lookup_insert_ne.
Qed.

Lemma converted_lookup_eq (convert : option (cell F) -> option (cell F)) c r v :
  convert (r !! c) = Some v → converted convert c r !! c = Some v.
Proof. intros Hv. unfold converted. rewrite Hv. by rewrite lookup_insert_eq. Qed.

Lemma omap_fmap_Forall2 {X Y Z'} (g : X → Z') (h : Z' → option Y)
    (P : X → Y → Prop) (l : list X) :
  Forall (fun x => ∃ y, h (g x) = Some y ∧ P x y) l →
  ∃ rows, omap h (g <$> l) = rows ∧ Forall2 P l rows.
Proof.
  induction 1 as [|x l (y & Hy & HP) Hl (rows & Hrows & HF)].
  - by exists [].
  - exists (y :: rows). cbn. rewrite Hy. cbn.
    fold (fmap (M:=list) g l). fold (omap h (g <$> l)). rewrite Hrows.
    split; [done|]. by constructor.
Qed.

Lemma column_of_records (items : list (gmap string scalar)) c :
  items ≠ [] →
  Forall (fun item => is_Some (item !! c)) items →
  c ∈ ⋃ (dom <$> items).
Proof.
  destruct items as [|item items]; [done|]. intros _ [Hc _]%Forall_cons_1.
  cbn. apply elem_of_union. left. by apply elem_of_dom.
Qed.

(** What the unchecked adapters make of a list of records that have the
    converted fields. *)
Lemma unchecked_open_interest (items : list (gmap string scalar)) :
  items ≠ [] →
  Forall (open_interest_record to_datetime to_float) items →
  ∃ rows,
    unchecked to_datetime to_float ["sumOpenInterest"; "sumOpenInterestValue"]
      (Some (JRecords items)) = Returned (Some rows) ∧
    Forall2 (fun item row => to_datetime (item !! "timestamp") = Some (timestamp row))
      items rows.
Proof.
  intros Hne Hitems. unfold unchecked.
  replace (truthy (JRecords items)) with true by (by destruct items).
  cbn [negb DataFrame_of bind]. unfold with_datetime.
  rewrite convert_column_converted; cbn [columns body].
  2:{ apply column_of_records; [done|].
      eapply Forall_impl; [exact Hitems|]. by intros item (H & _). }
  2:{ apply Forall_fmap. eapply Forall_impl; [exact Hitems|].
      intros item ([v Hv] & [t Ht] & _). cbn. rewrite lookup_fmap, Hv. cbn.
      rewrite Hv in Ht. rewrite Ht. by eexists. }
  cbn [bind]. unfold with_floats. cbn [foldl bind].
  rewrite convert_column_converted; cbn [columns body].
  2:{ apply elem_of_union. left. apply column_of_records; [done|].
      eapply Forall_impl; [exact Hitems|]. by intros item (_ & _ & H & _). }
  2:{ apply Forall_fmap, Forall_fmap. eapply Forall_impl; [exact Hitems|].
      intros item (_ & _ & [v Hv] & [x Hx] & _). cbn.
      rewrite converted_lookup_ne by done. rewrite lookup_fmap, Hv. cbn.
      rewrite Hv in Hx. rewrite Hx. by eexists. }
  cbn [bind].
  rewrite convert_column_converted; cbn [columns body].
  2:{ apply elem_of_union. left. apply elem_of_union. left.
      apply column_of_records; [done|].
      eapply Forall_impl; [exact Hitems|]. by intros item (_ & _ & _ & _ & H & _). }
  2:{ apply Forall_fmap, Forall_fmap, Forall_fmap.
      eapply Forall_impl; [exact Hitems|].
      intros item (_ & _ & _ & _ & [v Hv] & [x Hx]). cbn.
      rewrite !converted_lookup_ne by done. rewrite lookup_fmap, Hv. cbn.
      rewrite Hv in Hx. rewrite Hx. by eexists. }
  cbn [returned]. unfold typed_rows. cbn [body].
  rewrite <- !list_fmap_compose.
  match goal with
  | |- context [omap ?h (?g <$> items)] =>
      destruct (omap_fmap_Forall2 g h
                  (fun item row =>
                     to_datetime (item !! "timestamp") = Some (timestamp row)) items)
        as (rows & Hrows & HF)
  end.
  { eapply Forall_impl; [exact Hitems|].
    intros item ([v Hv] & [t Ht] & _). cbn.
    rewrite !converted_lookup_ne by done.
    erewrite converted_lookup_eq.
    2:{ rewrite lookup_fmap, Hv. cbn. rewrite Hv in Ht. by rewrite Ht. }
    eexists. split; [reflexivity|]. cbn. exact Ht. }
  exists rows. split; [|done]. by rewrite Hrows.
Qed.

End ConversionFacts.

(** X10 (a well-formed page).  When the server answers with a list, not empty,
    of records that all have [timestamp], [sumOpenInterest] and
    [sumOpenInterestValue] in a form that converts,
    [get_open_interest_hist] returns a frame with one row for each record,
    in the order of the payload, the timestamp of each row being the
    converted [timestamp] of its record. *)
Theorem open_interest_keeps_the_records {W F : Type}
    (session_get : string -> list (string * scalar) -> W -> get_outcome * W)
    (to_datetime : option scalar -> option instant)
    (to_float : option scalar -> option F)
    (symbol period : string) (start_time end_time : instant) (limit : Z)
    (items : list (gmap string scalar)) (n : Net W) :
  (∀ url params w, (session_get url params w).1 = Response (JRecords items)) →
  items ≠ [] →
  Forall (open_interest_record to_datetime to_float) items →
  ∃ rows,
    (get_open_interest_hist session_get to_datetime to_float symbol period
       start_time end_time limit n).1 = Returned (Some rows) ∧
    length rows = length items ∧
    Forall2 (fun item row => to_datetime (item !! "timestamp") = Some (timestamp row))
      items rows.
Proof.
  intros Hserver Hne Hitems.
  destruct (unchecked_open_interest to_datetime to_float items Hne Hitems)
    as (rows & Hrows & HF).
  exists rows. split; [|split; [|done]].
  - unfold get_open_interest_hist.
    match goal with
    | |- context [request _ ?u ?p ?m] =>
        pose proof (request_answered session_get u p m _ (Hserver _ _ _)) as Hr;
        destruct (request session_get u p m) as [data n']
    end.
    simpl in Hr. subst data. exact Hrows.
  - symmetry. by eapply Forall2_length.
Qed.

Lemma open_interest_keeps_the_records_witness :
  ∃ rows,
    (get_open_interest_hist Replies.answering Replies.integer_milliseconds
       Replies.integer_float "BTCUSDT" "5m" (datetime 2024 1 1) (datetime 2024 1 2)
       500 Servers.offline).1 = Returned (Some rows) ∧
    length rows = length Replies.two_items ∧
    Forall2 (fun item row =>
               Replies.integer_milliseconds (item !! "timestamp")
               = Some (timestamp row))
      Replies.two_items rows.
Proof.
  apply (open_interest_keeps_the_records Replies.answering
           Replies.integer_milliseconds Replies.integer_float "BTCUSDT" "5m"
           (datetime 2024 1 1) (datetime 2024 1 2) 500 Replies.two_items
           Servers.offline).
  - intros. reflexivity.
  - discriminate.
  - repeat apply Forall_cons_2; [..|apply Forall_nil_2].
    all: unfold open_interest_record; split_and!; eexists; vm_compute; reflexivity.
Defined.

Section FuelFacts.

Context {A W : Type}.

Lemma batched_fetch_ends (time_delta : timedelta) (end_date start_date : instant)
    (fetch : window_fetcher A W) :
  ends (fun fuel w => batched_fetch time_delta end_date fetch fuel start_date w).
Proof.
  split.
  - intros w. apply batched_fetch_terminates.
  - intros fuel fuel' w x Hx Hle. unfold batched_fetch in *.
    destruct (batched_loop _ _ _ fuel _) as [r|] eqn:E; [|done].
    by rewrite (loop_more_fuel _ _ _ _ _ _ _ E Hle).
Qed.

End FuelFacts.

Section AggregatorFacts.

Context {W F : Type}.
Variable session_get : string -> list (string * scalar) -> W -> get_outcome * W.
Variable to_datetime : option scalar -> option instant.
Variable to_float : option scalar -> option F.
Variable symbol : string.

Local Abbreviation table := (option (DataFrame (row_cells (F:=F)))).
Local Abbreviation result := (aggregate (F:=F) * Net W)%type.

(** One series and then the rest end when both do. *)
Lemma then_series_ends
    (series : nat → Net W → option (fetch_result (row_cells (F:=F)) * Net W))
    (rest : nat → table → Net W → option result) :
  ends series →
  (∀ t, ends (fun fuel => rest fuel t)) →
  ends (fun fuel => then_series (series fuel) (rest fuel)).
Proof.
  intros [Hs Hsm] Hrest. split.
  - intros n. destruct (Hs n) as [f1 [[res n1] H1]].
    destruct res as [t|e].
    + destruct (Hrest t) as [Hr Hrm]. destruct (Hr n1) as [f2 [x H2]].
      exists (f1 `max` f2)%nat. unfold then_series.
      rewrite (Hsm f1 _ n _ H1) by lia. rewrite (Hrm f2 _ n1 _ H2) by lia.
      by eexists.
    + exists f1. unfold then_series. rewrite H1. by eexists.
  - intros fuel fuel' n x Hx Hle. unfold then_series in *.
    destruct (series fuel n) as [[res n1]|] eqn:E; [|done].
    rewrite (Hsm fuel fuel' n _ E Hle).
    destruct res as [t|e]; [|done].
    destruct (Hrest t) as [_ Hrm]. by apply (Hrm fuel).
Qed.

Lemma aggregator_ends (period : string) (start_date end_date : instant) :
  ends (fun fuel =>
          get_all_comprehensive_data session_get to_datetime to_float symbol fuel
            period start_date end_date).
Proof.
  unfold get_all_comprehensive_data, _get_batched_data, _get_batched_funding_rate.
  repeat (apply then_series_ends; [apply batched_fetch_ends|intros ?]).
  split.
  - intros n. exists 0%nat. by eexists.
  - by intros fuel fuel' n x Hx _.
Qed.

Lemma then_series_collected
    (series : Net W → option (fetch_result (row_cells (F:=F)) * Net W))
    (rest : table → Net W → option result) n b n' :
  then_series series rest n = Some (Collected b, n') →
  ∃ t n1, series n = Some (Returned t, n1) ∧ rest t n1 = Some (Collected b, n').
Proof.
  unfold then_series. destruct (series n) as [[[t|e] n1]|]; [|done..].
  intros H. by exists t, n1.
Qed.

Lemma batched_fetch_proper (time_delta : timedelta) (end_date start_date : instant)
    (fetch : window_fetcher (row_cells (F:=F)) (Net W)) fuel n t n' :
  0 < time_delta →
  batched_fetch time_delta end_date fetch fuel start_date n = Some (Returned t, n') →
  proper_series t.
Proof.
  intros Hd Hrun. destruct t as [df|]; [|done].
  by apply (batched_fetch_result _ _ _ _ _ _ _ _ Hd Hrun).
Qed.

Lemma aggregator_proper fuel period start_date end_date n b n' :
  get_all_comprehensive_data session_get to_datetime to_float symbol fuel
    period start_date end_date n = Some (Collected b, n') →
  Forall proper_series (series_in_order b).
Proof.
  unfold get_all_comprehensive_data, _get_batched_data, _get_batched_funding_rate.
  pose proof (period_step_positive period) as Hstep.
  intros H.
  apply then_series_collected in H as (t1 & n1 & H1%batched_fetch_proper & H); [|done].
  apply then_series_collected in H as (t2 & n2 & H2%batched_fetch_proper & H); [|done].
  apply then_series_collected in H as (t3 & n3 & H3%batched_fetch_proper & H); [|done].
  apply then_series_collected in H as (t4 & n4 & H4%batched_fetch_proper & H); [|done].
  apply then_series_collected in H as (t5 & n5 & H5%batched_fetch_proper & H); [|done].
  apply then_series_collected in H as (t6 & n6 & H6%batched_fetch_proper & H); [|done].
  apply then_series_collected in H as (t7 & n7 & H7%batched_fetch_proper & H); [|done].
  simplify_eq. unfold series_in_order. cbn. by repeat constructor.
Qed.

End AggregatorFacts.

Section RangeFacts.

Context {F : Type}.

Implicit Types (l : list (option (DataFrame (row_cells (F:=F))))).

Lemma ascending_ends {A} (x : Row A) (df : DataFrame A) (y : Row A) :
  strictly_ascending (x :: df) → last (x :: df) = Some y → timestamp x <= timestamp y.
Proof.
  intros [Hx _]%StronglySorted_cons Hlast.
  destruct df as [|z df]; [by simplify_eq/=|].
  rewrite last_cons_cons in Hlast. apply last_Some_elem_of in Hlast.
  rewrite Forall_forall in Hx. specialize (Hx y Hlast). lia.
Qed.

Lemma first_range_proper l :
  Forall proper_series l →
  match first_range l with
  | NoRange =>
      existsb (fun s => match s with Some _ => true | None => false end) l = false
  | Range actual_start actual_end =>
      existsb (fun s => match s with Some _ => true | None => false end) l = true ∧
      actual_start <= actual_end
  | IndexError => False
  end.
Proof.
  induction 1 as [|[df|] l Hs Hl IH]; [done| |done].
  cbn. destruct Hs as [Hne Hasc]. destruct df as [|x df]; [done|].
  cbn [head]. destruct (last (x :: df)) as [y|] eqn:Hy.
  - split; [done|]. by eapply ascending_ends.
  - by apply last_None in Hy.
Qed.

End RangeFacts.

(** X11 (the aggregator ends).  Whatever the server answers,
    [get_all_comprehensive_data] ends: some bound on the passes of the
    seven loops is enough for a result (the bundle or an exception), and
    any larger bound gives the same result. *)
Theorem aggregator_always_ends {W F : Type}
    (session_get : string -> list (string * scalar) -> W -> get_outcome * W)
    (to_datetime : option scalar -> option instant)
    (to_float : option scalar -> option F)
    (symbol period : string) (start_date end_date : instant) :
  ends (fun fuel =>
          get_all_comprehensive_data session_get to_datetime to_float symbol fuel
            period start_date end_date).
Proof. apply aggregator_ends. Qed.

(** X12 (the series of the bundle).  Every series of a bundle that
    [get_all_comprehensive_data] returns is [None] or a frame with at least
    one row whose timestamps are strictly ascending, whatever the server
    answered. *)
Theorem bundle_series_are_proper {W F : Type}
    (session_get : string -> list (string * scalar) -> W -> get_outcome * W)
    (to_datetime : option scalar -> option instant)
    (to_float : option scalar -> option F)
    (symbol : string) (fuel : nat) (period : string)
    (start_date end_date : instant) (n : Net W) (b : Bundle) (n' : Net W) :
  get_all_comprehensive_data session_get to_datetime to_float symbol fuel
    period start_date end_date n = Some (Collected b, n') →
  Forall proper_series (series_in_order b).
Proof. apply aggregator_proper. Qed.

Lemma bundle_series_are_proper_witness :
  Forall proper_series (series_in_order Replies.full_bundle).
Proof.
  apply (bundle_series_are_proper Replies.exchange Replies.integer_milliseconds
           Replies.integer_float "BTCUSDT" 1 "5m" Replies.range_start Replies.range_end
           Servers.offline Replies.full_bundle Replies.full_net).
  vm_compute. reflexivity.
Defined.

(** Funding records with a [timestamp] of their own: after the renaming
    the page has two columns of that label, and the run ends with the
    exception of the funding series, after the six other series and one
    request for the funding rates. *)
Example funding_records_with_a_timestamp :
  ∃ n',
    get_all_comprehensive_data Replies.funding_with_timestamps
      Replies.integer_milliseconds Replies.integer_float "BTCUSDT" 1 "5m"
      Replies.range_start Replies.range_end Servers.offline
    = Some (Escaped (AmbiguousColumn "timestamp"), n') ∧
    urls (log n') = endpoint_urls.
Proof. eexists. split; [vm_compute; reflexivity|reflexivity]. Qed.

(** X13 (the range that [main] reads off the bundle).  On a bundle that
    [get_all_comprehensive_data] returned, the loop of [main] that takes
    [iloc[0]] and [iloc[-1]] of the first series that is there never raises
    an IndexError; it finds a range exactly when [has_data] holds, and the
    start of the range is not after its end. *)
Theorem main_reads_a_range {W F : Type}
    (session_get : string -> list (string * scalar) -> W -> get_outcome * W)
    (to_datetime : option scalar -> option instant)
    (to_float : option scalar -> option F)
    (symbol : string) (fuel : nat) (period : string)
    (start_date end_date : instant) (n : Net W) (b : Bundle) (n' : Net W) :
  get_all_comprehensive_data session_get to_datetime to_float symbol fuel
    period start_date end_date n = Some (Collected b, n') →
  match actual_range b with
  | NoRange => has_data b = false
  | Range actual_start actual_end => has_data b = true ∧ actual_start <= actual_end
  | IndexError => False
  end.
Proof.
  intros Hrun. apply first_range_proper. by eapply aggregator_proper.
Qed.

Lemma main_reads_a_range_witness :
  match actual_range Replies.full_bundle with
  | NoRange => has_data Replies.full_bundle = false
  | Range actual_start actual_end =>
      has_data Replies.full_bundle = true ∧ actual_start <= actual_end
  | IndexError => False
  end.
Proof.
  apply (main_reads_a_range Replies.exchange Replies.integer_milliseconds
           Replies.integer_float "BTCUSDT" 1 "5m" Replies.range_start Replies.range_end
           Servers.offline Replies.full_bundle Replies.full_net).
  vm_compute. reflexivity.
Defined.

Lemma validate_columns_spec (columns : list string) :
  validate_columns columns = true ↔ ∀ col, col ∈ required_columns → col ∈ columns.
Proof.
  unfold validate_columns, missing_columns. split.
  - intros H col Hcol. destruct (decide (col ∈ columns)) as [|Hno]; [done|].
    destruct (filter _ required_columns) as [|c l] eqn:E; [|done].
    exfalso. eapply (filter_nil_not_elem_of _ _ col); [exact E|done|done].
  - intros H. destruct (filter _ required_columns) as [|c l] eqn:E; [done|].
    assert (c ∈ filter (fun col => col ∉ columns) required_columns) as Hc
      by (rewrite E; left).
    apply list_elem_of_filter in Hc as [Hno Hc]. by destruct Hno; apply H.
Qed.

(** X14 (what is exported passes the check of the plotting program).  The
    sheet that [export_to_excel] writes has no label twice; there is a sheet
    exactly when some series is there; and [validate_columns] of the
    plotting program accepts its labels exactly when the six series other
    than the candles are all there: the candles are optional, every other
    series that is missing makes the check fail. *)
Theorem exported_sheet_is_valid_iff_six_series {F : Type} (b : Bundle (F:=F)) :
  match export_labels b with
  | None => has_data b = false
  | Some labels =>
      has_data b = true ∧
      NoDup labels ∧
      validate_columns labels =
        there (open_interest b) && there (top_account_ratio b)
        && there (top_position_ratio b) && there (global_ratio b)
        && there (basis b) && there (funding_rate b)
  end.
Proof.
  destruct b as [[?|] [?|] [?|] [?|] [?|] [?|] [?|]].
  all: unfold export_labels, has_data, series_in_order;
    cbn [open_interest top_account_ratio top_position_ratio global_ratio basis
         klines funding_rate add_series there existsb orb andb].
  all: try reflexivity.
  all: split; [reflexivity|]; split;
    [match goal with
     | |- NoDup ?l => refine (bool_decide_unpack (NoDup l) _)
     end; vm_compute; exact I
    |vm_compute; reflexivity].
Qed.

Section OrderFacts.

Context {W F : Type}.
Variable session_get : string -> list (string * scalar) -> W -> get_outcome * W.
Variable to_datetime : option scalar -> option instant.
Variable to_float : option scalar -> option F.
Variable symbol : string.

Implicit Types (n : Net W).

Lemma only_to_refl u n : only_to u n n.
Proof. exists 0%nat. by rewrite app_nil_r. Qed.

Lemma only_to_trans u n1 n2 n3 : only_to u n1 n2 → only_to u n2 n3 → only_to u n1 n3.
Proof.
  intros [k1 H1] [k2 H2]. exists (k1 + k2)%nat.
  by rewrite H2, H1, <- app_assoc, replicate_add.
Qed.

Lemma retry_trace_urls url params attempt k :
  urls (retry_trace url params attempt k) = replicate k url.
Proof.
  revert attempt. induction k as [|[|k] IH]; intros attempt; [done..|].
  rewrite retry_trace_S.
  change (urls (Get url params :: Sleep ((Z.of_nat attempt + 1) * 2)
                :: retry_trace url params (S attempt) (S k)))
    with (url :: urls (retry_trace url params (S attempt) (S k))).
  by rewrite IH.
Qed.

Lemma request_only_to url params n :
  only_to url n (request session_get url params n).2.
Proof.
  unfold request, _make_request.
  destruct (attempts_trace session_get default_max_retries 0 default_max_retries
              url params n) as (k & _ & Hlog & _); [lia|].
  exists k. rewrite Hlog. unfold urls. rewrite omap_app.
  f_equal. apply retry_trace_urls.
Qed.

Ltac adapter_only_to :=
  intros;
  match goal with
  | |- context [request _ ?u ?p ?m] =>
      let data := fresh "data" in
      let n' := fresh "n'" in
      pose proof (request_only_to u p m) as Honly;
      destruct (request session_get u p m) as [data n'];
      simpl in *; try (destruct (usable_list data)); exact Honly
  end.

Lemma adapters_only_to period a b limit n :
  only_to (base_url +:+ "/futures/data/openInterestHist") n
    (get_open_interest_hist session_get to_datetime to_float symbol period a b limit n).2 ∧
  only_to (base_url +:+ "/futures/data/topLongShortAccountRatio") n
    (get_top_long_short_account_ratio session_get to_datetime to_float symbol
       period a b limit n).2 ∧
  only_to (base_url +:+ "/futures/data/topLongShortPositionRatio") n
    (get_top_long_short_position_ratio session_get to_datetime to_float symbol
       period a b limit n).2 ∧
  only_to (base_url +:+ "/futures/data/globalLongShortAccountRatio") n
    (get_global_long_short_account_ratio session_get to_datetime to_float symbol
       period a b limit n).2 ∧
  only_to (base_url +:+ "/futures/data/basis") n
    (get_basis_data session_get to_datetime to_float symbol period a b limit n).2 ∧
  only_to (base_url +:+ "/fapi/v1/klines") n
    (get_klines session_get to_datetime to_float symbol period a b limit n).2 ∧
  only_to (base_url +:+ "/fapi/v1/fundingRate") n
    (get_funding_rate session_get to_datetime to_float symbol a b limit n).2.
Proof.
  unfold get_open_interest_hist, get_top_long_short_account_ratio,
    get_top_long_short_position_ratio, get_global_long_short_account_ratio,
    get_basis_data, get_klines, get_funding_rate.
  split_and!; adapter_only_to.
Qed.

End OrderFacts.

Section LoopOrder.

Context {A W : Type}.
Variable time_delta : timedelta.
Variable end_date : instant.
Variable fetch : window_fetcher A (Net W).
Variable u : string.
Hypothesis fetch_only_to : ∀ a b n, only_to u n (fetch a b n).2.

Lemma loop_only_to fuel (st : BatchState A (Net W)) r :
  batched_loop time_delta end_date fetch fuel st = Some r →
  only_to u (world st) (world (final_state r)).
Proof.
  revert st. induction fuel as [|fuel IH]; intros st Hr.
  - simpl in Hr. destruct (current_start st <? end_date); [done|].
    simplify_eq. apply only_to_refl.
  - destruct (Z.lt_ge_cases (current_start st) end_date) as [Hrun|Hrun].
    2:{ rewrite loop_stop in Hr by done. simplify_eq. apply only_to_refl. }
    rewrite loop_pass in Hr by done.
    pose proof (step_world time_delta end_date fetch st) as Hw.
    pose proof (fetch_only_to (current_start st)
                  (window_end time_delta end_date st) (world st)) as Hstep.
    rewrite <- Hw in Hstep.
    destruct (batch_step time_delta end_date fetch st) as [st1|st1|e st1];
      cbn [state_of] in *; [|by simplify_eq..].
    eapply only_to_trans; [exact Hstep|]. by apply IH.
Qed.

Lemma batched_fetch_only_to fuel start_date n res n' :
  batched_fetch time_delta end_date fetch fuel start_date n = Some (res, n') →
  only_to u n n'.
Proof.
  unfold batched_fetch. destruct (batched_loop _ _ _ _ _) as [r|] eqn:E; [|done].
  apply loop_only_to in E. destruct r; simpl in *; by intros [= _ <-].
Qed.

End LoopOrder.

Section AggregatorOrder.

Context {W F : Type}.
Variable session_get : string -> list (string * scalar) -> W -> get_outcome * W.
Variable to_datetime : option scalar -> option instant.
Variable to_float : option scalar -> option F.
Variable symbol : string.

Implicit Types (n : Net W).

Local Abbreviation grows us n n' :=
  (∃ counts, length counts = length us ∧
             urls (log n') = urls (log n) ++ in_blocks counts us).

Lemma in_blocks_zeros (us : list string) :
  in_blocks (replicate (length us) 0%nat) us = [].
Proof. induction us as [|u us IH]; [done|]. exact IH. Qed.

Lemma grows_stop u (us : list string) n n' : only_to u n n' → grows (u :: us) n n'.
Proof.
  intros [k Hk]. exists (k :: replicate (length us) 0%nat). split.
  - simpl. by rewrite length_replicate.
  - rewrite Hk. unfold in_blocks. cbn [zip_with concat].
    fold (in_blocks (replicate (length us) 0%nat) us).
    by rewrite in_blocks_zeros, app_nil_r.
Qed.

Lemma grows_go u (us : list string) n n1 n' :
  only_to u n n1 → grows us n1 n' → grows (u :: us) n n'.
Proof.
  intros [k Hk] (counts & Hlen & Hurls). exists (k :: counts). split.
  - simpl. by rewrite Hlen.
  - rewrite Hurls, Hk. unfold in_blocks. cbn [zip_with concat].
    by rewrite <- app_assoc.
Qed.

Lemma then_series_grows u (us : list string)
    (series : Net W → option (fetch_result (row_cells (F:=F)) * Net W))
    (rest : option (DataFrame (row_cells (F:=F))) → Net W
            → option (aggregate (F:=F) * Net W)) n res n' :
  (∀ m x m', series m = Some (x, m') → only_to u m m') →
  (∀ t m y m', rest t m = Some (y, m') → grows us m m') →
  then_series series rest n = Some (res, n') →
  grows (u :: us) n n'.
Proof.
  intros Hseries Hrest. unfold then_series.
  destruct (series n) as [[[t|e] n1]|] eqn:E; [| |done].
  - intros H. eapply grows_go; [by eapply Hseries|by eapply Hrest].
  - intros [= _ <-]. apply grows_stop. by eapply Hseries.
Qed.

(** The aggregator asks address after address, in the order of the
    series. *)
Lemma aggregator_in_blocks fuel period start_date end_date n res n' :
  get_all_comprehensive_data session_get to_datetime to_float symbol fuel
    period start_date end_date n = Some (res, n') →
  grows endpoint_urls n n'.
Proof.
  unfold get_all_comprehensive_data, _get_batched_data, _get_batched_funding_rate,
    endpoint_urls.
  cbn [fmap list_fmap].
  revert n res n'.
  do 7 (intros ???; apply then_series_grows;
        [intros ???; apply batched_fetch_only_to; intros ???;
         apply (adapters_only_to session_get to_datetime to_float symbol period)
        |intros ?]).
  intros ??? [= _ <-]. exists []. split; [done|].
  by rewrite app_nil_r.
Qed.

End AggregatorOrder.

(** X15 (one series after the other).  In every run of
    [get_all_comprehensive_data], whether it returns the bundle or an
    exception leaves it, the requests go to the seven addresses one address
    after the other, in the order of the series: once a request was made
    for a series, no request is made for an earlier one. *)
Theorem series_are_fetched_in_order {W F : Type}
    (session_get : string -> list (string * scalar) -> W -> get_outcome * W)
    (to_datetime : option scalar -> option instant)
    (to_float : option scalar -> option F)
    (symbol : string) (fuel : nat) (period : string)
    (start_date end_date : instant) (n : Net W)
    (res : aggregate (F:=F)) (n' : Net W) :
  get_all_comprehensive_data session_get to_datetime to_float symbol fuel
    period start_date end_date n = Some (res, n') →
  ∃ counts,
    length counts = 7%nat ∧
    urls (log n') = urls (log n) ++ in_blocks counts endpoint_urls.
Proof. apply aggregator_in_blocks. Qed.

Lemma series_are_fetched_in_order_witness :
  ∃ counts,
    length counts = 7%nat ∧
    urls (log Replies.full_net)
    = urls (log Servers.offline) ++ in_blocks counts endpoint_urls.
Proof.
  apply (series_are_fetched_in_order Replies.exchange Replies.integer_milliseconds
           Replies.integer_float "BTCUSDT" 1 "5m" Replies.range_start Replies.range_end
           Servers.offline (Collected Replies.full_bundle) Replies.full_net).
  vm_compute. reflexivity.
Defined.

(** * What a failing series does to the run *)

Section AdapterFacts.

Import Pandas.

Context {W F : Type}.
Variable session_get : string -> list (string * scalar) -> W -> get_outcome * W.
Variable to_datetime : option scalar -> option instant.
Variable to_float : option scalar -> option F.
Variable symbol : string.






Local Abbreviation adapter_logs f u :=
  (∀ a b (n : Net W), extends n (f a b n).2 ∧ u ∈ urls (log (f a b n).2)).

(** An adapter either was handed a payload that Python takes for true, or
    returns [None]. *)
Local Abbreviation handed_or_none f u :=
  (∀ a b (n : Net W),
     (∃ params payload,
        (request session_get u params n).1 = Some payload ∧ truthy payload = true) ∨
     (f a b n).1 = Returned None).


Section Series.

Variable period : string.

Local Abbreviation oi := (fun a b => get_open_interest_hist session_get to_datetime to_float symbol period a b 500).
Local Abbreviation top_account := (fun a b => get_top_long_short_account_ratio session_get to_datetime to_float symbol period a b 500).
Local Abbreviation top_position := (fun a b => get_top_long_short_position_ratio session_get to_datetime to_float symbol period a b 500).
Local Abbreviation global := (fun a b => get_global_long_short_account_ratio session_get to_datetime to_float symbol period a b 500).
Local Abbreviation basis_ := (fun a b => get_basis_data session_get to_datetime to_float symbol period a b 500).
Local Abbreviation klines_ := (fun a b => get_klines session_get to_datetime to_float symbol period a b 500).
Local Abbreviation funding := (fun a b => get_funding_rate session_get to_datetime to_float symbol a b 1000).


(** Every call of an adapter makes at least one GET, to its address. *)
Local Abbreviation adapter_gets f u :=
  (∀ a b (n : Net W),
     ∃ k, urls (log (f a b n).2) = urls (log n) ++ replicate (S k) u).




End Series.




End AdapterFacts.

Section SeriesFacts.

Context {A W : Type}.
Variable time_delta : timedelta.
Variable end_date : instant.
Variable fetch : window_fetcher A (Net W).
Variable u : string.
Variable quiet : Prop.

Hypothesis fetch_logs :
  ∀ a b n, extends n (fetch a b n).2 ∧ u ∈ urls (log (fetch a b n).2).
Hypothesis fetch_gets :
  ∀ a b n, ∃ k, urls (log (fetch a b n).2) = urls (log n) ++ replicate (S k) u.
Hypothesis quiet_none : quiet → ∀ a b n, (fetch a b n).1 = Returned None.





End SeriesFacts.

Section ChainFacts.

Context {W F : Type}.

Implicit Types (n : Net W) (us : list string) (res : aggregate (F:=F)).

(** How a run of series asks the addresses [us]: every one of them at
    least once, one after the other, when the bundle is returned; these up
    to the one whose series raised, and no other, when an exception ends
    the run. *)
Local Abbreviation ordered us n res n' :=
  (match res with
   | Collected _ =>
       ∃ counts,
         length counts = length us ∧ Forall (fun c : nat => (0 < c)%nat) counts ∧
         urls (log n') = urls (log n) ++ in_blocks counts us
   | Escaped _ =>
       ∃ j counts,
         Nat.lt j (length us) ∧ length counts = S j ∧
         Forall (fun c : nat => (0 < c)%nat) counts ∧
         urls (log n') = urls (log n) ++ in_blocks counts (take (S j) us)
   end).



End ChainFacts.


Section AggregatorFacts.

Context {W F : Type}.
Variable session_get : string -> list (string * scalar) -> W -> get_outcome * W.
Variable to_datetime : option scalar -> option instant.
Variable to_float : option scalar -> option F.
Variable symbol : string.

Implicit Types (n : Net W).



End AggregatorFacts.



(** The endpoint of the open interest down, the others up: the bundle is
    returned after nine GETs, three of them the attempts of the one request
    for the open interest; it has no open interest and two rows of each of
    the other six series. *)
Example one_series_down :
  Replies.partial_run = Some (Collected Replies.partial_bundle, Replies.partial_net) ∧
  gets (log Replies.partial_net) = 9%nat ∧
  barren_at Replies.open_interest_down
    "https://fapi.binance.com/futures/data/openInterestHist" ∧
  ¬ barren Replies.open_interest_down ∧
  fmap (M:=list) (fmap (M:=option) length) (series_in_order Replies.partial_bundle)
  = [None; Some 2; Some 2; Some 2; Some 2; Some 2; Some 2]%nat.
Proof.
  split; [vm_compute; reflexivity|]. split; [vm_compute; reflexivity|].
  split; [by intros params w|]. split; [|vm_compute; reflexivity].
  intros H. specialize (H "https://fapi.binance.com/futures/data/basis" [] tt).
  vm_compute in H. discriminate.
Qed.

